(** * Parquet binding of cudf: [python/cudf/cudf/_libxx/parquet.pyx]

    A shallow embedding of the Cython binding layer that marshals the
    arguments of the Parquet reader, writer and footer merger of libcudf,
    together with the type declarations of [types.hpp] it relies on.

    Python exceptions are values of [PyExc] threaded through the error monad
    [result]; the byte sink is an explicit state ([World]) passed through the
    writer.  The libcudf entry points the binding calls ([write_parquet],
    [read_parquet], [merge_rowgroup_metadata]) are an interface
    ([libcudf_io]); the binding is defined and verified against any
    implementation of it, and a reference implementation that follows the
    design document is given at the end of the definitions. *)

From stdpp Require Import base option strings list gmap.
From Stdlib Require Import ZArith Ascii.

Local Open Scope string_scope.
Local Open Scope Z_scope.
Local Open Scope list_scope.

(** ** Exceptions and the error monad *)

(** Errors raised inside libcudf, by the taxonomy of the design document.
    They reach Python as an exception translated from the C++ one. *)
Inductive cudf_error :=
| IONotFound
| OutOfRange
| UnknownColumn
| SchemaMismatch
| InvalidArgument.

Inductive PyExc :=
| ValueError (msg : string)
| TypeError
| KeyError
| OverflowError
| IndexError
| CppError (e : cudf_error).

Inductive result (A : Type) :=
| Ok (a : A)
| Raise (e : PyExc).
Arguments Ok {A} a.
Arguments Raise {A} e.

#[global] Instance result_ret : MRet result := fun A a => Ok a.
#[global] Instance result_bind : MBind result := fun A B f r =>
  match r with
  | Ok a => f a
  | Raise e => Raise e
  end.

Definition is_Ok {A} (r : result A) : bool :=
  match r with Ok _ => true | Raise _ => false end.

(** ** [types.hpp] *)

(** [enum type_id]; the trailing enumerator [NUM_TYPE_IDS] counts the tags
    and is not itself the tag of any column. *)
Inductive type_id :=
| EMPTY | INT8 | INT16 | INT32 | INT64 | FLOAT32 | FLOAT64
| BOOL8 | DATE32 | TIMESTAMP | CATEGORY | STRING.

#[global] Instance type_id_eq_dec : EqDecision type_id.
Proof. solve_decision. Defined.

Definition type_id_value (t : type_id) : Z :=
  match t with
  | EMPTY => 0 | INT8 => 1 | INT16 => 2 | INT32 => 3 | INT64 => 4
  | FLOAT32 => 5 | FLOAT64 => 6 | BOOL8 => 7 | DATE32 => 8
  | TIMESTAMP => 9 | CATEGORY => 10 | STRING => 11
  end.

Definition NUM_TYPE_IDS : Z := 12.

(** [class data_type]: [_id{EMPTY}] by default. *)
Record data_type := mk_data_type { id : type_id }.
Definition data_type_default : data_type := mk_data_type EMPTY.

(** [using size_type = int32_t]. *)
Definition size_type_min : Z := - 2 ^ 31.
Definition size_type_max : Z := 2 ^ 31 - 1.
Definition in_size_type (z : Z) : bool :=
  (size_type_min <=? z) && (z <=? size_type_max).

Definition UNKNOWN_NULL_COUNT : Z := -1.

(** Assigning a Python integer to a [size_type] field: Cython raises
    [OverflowError] when the value does not fit. *)
Definition to_size_type (z : Z) : result Z :=
  if in_size_type z then Ok z else Raise OverflowError.

(** ** Columns, indexes and tables *)

(** A cell value: integers, dates, timestamps and booleans by their integer
    value, floating-point values by their bit pattern, strings as text. *)
Inductive scalar :=
| SInt (z : Z)
| SStr (s : string).

(** A column: its type tag and its cells, [None] for a null row (the bit of
    the null mask is clear). *)
Record Column := mk_Column {
  dtype : type_id;
  cells : list (option scalar)
}.

Definition column_size (c : Column) : Z := Z.of_nat (length (cells c)).

(** [cudf.utils.dtypes.is_categorical_dtype]. *)
Definition is_categorical_dtype (c : Column) : bool :=
  bool_decide (dtype c = CATEGORY).

(** The index of a table: a [RangeIndex], one materialised column, or a
    [MultiIndex] of levels.  Names are Python objects that are either a
    string or [None]. *)
Inductive Index :=
| RangeIndex (name : option string) (start stop : Z)
| GenericIndex (name : option string) (col : Column)
| MultiIndex (levels : list (option string * Column)).

Record Table := mk_Table {
  _index : Index;
  _data : list (string * Column)
}.

Definition isinstance_MultiIndex (i : Index) : bool :=
  match i with MultiIndex _ => true | _ => false end.

Definition isinstance_RangeIndex (i : Index) : bool :=
  match i with RangeIndex _ _ _ => true | _ => false end.

(** [index.names] *)
Definition index_names (i : Index) : list (option string) :=
  match i with
  | RangeIndex n _ _ => [n]
  | GenericIndex n _ => [n]
  | MultiIndex levels => fst <$> levels
  end.

(** [index.name]; a [MultiIndex] has none. *)
Definition index_name (i : Index) : option string :=
  match i with
  | RangeIndex n _ _ => n
  | GenericIndex n _ => n
  | MultiIndex _ => None
  end.

(** The values [start, start+1, ..., stop-1] of a range. *)
Definition range_cells (start stop : Z) : list (option scalar) :=
  (fun k => Some (SInt (start + Z.of_nat k))) <$> seq 0 (Z.to_nat (stop - start)).

Definition index_columns (i : Index) : list Column :=
  match i with
  | RangeIndex _ start stop => [mk_Column INT64 (range_cells start stop)]
  | GenericIndex _ col => [col]
  | MultiIndex levels => snd <$> levels
  end.

(** [table._column_names] *)
Definition _column_names (t : Table) : list string := fst <$> _data t.

Definition data_columns (t : Table) : list Column := snd <$> _data t.

(** A [table_view] is the sequence of the columns it presents. *)
Definition table_view := list Column.

(** Modelled from the spec: [Table.view] and [Table.data_view] of
    [cudf/_libxx/table.pyx], which is not among the sources.  "A view over
    its columns is taken, excluding index columns when the caller indicates
    no index should be persisted"; "index columns, if included, are column
    0..k-1". *)
Definition view (t : Table) : table_view :=
  index_columns (_index t) ++ data_columns t.

Definition data_view (t : Table) : table_view := data_columns t.

(** Modelled from the spec: [MultiIndex.get_level_values] of
    [cudf/core/multiindex.py], which is not among the sources: the level
    carrying the given name, as an index of its own. *)
Fixpoint get_level_values (levels : list (option string * Column))
    (name : string) : result Index :=
  match levels with
  | [] => Raise KeyError
  | (n, c) :: rest =>
      if bool_decide (n = Some name) then Ok (GenericIndex (Some name) c)
      else get_level_values rest name
  end.

(** The [index] argument of the writer: [True], [False] or [None]. *)
Inductive index_policy := IndexTrue | IndexFalse | IndexNone.

Definition is_not_False (p : index_policy) : bool :=
  match p with IndexFalse => false | _ => true end.

(** ** JSON documents and table metadata *)

(** Python text is modelled by [string], one [ascii] per character; C++
    [std::string] values are the UTF-8 bytes of the same text, so
    [str.encode] and [bytes.decode] leave the model unchanged. *)

(** The value [json.loads] builds.  An object is the Python dictionary built
    from it: its keys are distinct and keep their order. *)
#[warnings="-register-all"] Inductive json :=
| JNull
| JBool (b : bool)
| JInt (z : Z)
| JReal (literal : string)
| JStr (s : string)
| JList (l : list json)
| JDict (d : list (string * json)).

(** A value of the [user_data] map of libcudf.  The only entry the binding
    looks into is ["pandas"], which holds JSON text: such a text is kept as
    the document it denotes ([json.dumps] and [json.loads] of the Python
    standard library are inverse to each other on it). *)
Inductive ud_value :=
| EmptyText
| JsonText (doc : json)
| OtherText (s : string).

(** [struct table_metadata] of [cudf/io/types.hpp]. *)
Record table_metadata := mk_table_metadata {
  column_names : list string;
  user_data : gmap string ud_value
}.

(** [user_data[key]] on a [std::map<string, string>]: a missing key reads as
    the empty string. *)
Definition user_data_at (m : gmap string ud_value) (key : string) : ud_value :=
  default EmptyText (m !! key).

(** ** The libcudf interface *)

Inductive compression_type := NONE | SNAPPY.

Inductive statistics_freq :=
| STATISTICS_NONE
| STATISTICS_ROWGROUP
| STATISTICS_PAGE.

Record sink_info := mk_sink_info { sink_filepath : string }.
Record source_info := mk_source_info { source_filepath : string }.

Record write_parquet_args := mk_write_parquet_args {
  wa_sink : sink_info;
  wa_table : table_view;
  wa_metadata : table_metadata;
  wa_compression : compression_type;
  wa_stats_level : statistics_freq;
  wa_return_filemetadata : bool;
  wa_metadata_out_file_path : string
}.

Record read_parquet_args := mk_read_parquet_args {
  ra_source : source_info;
  ra_columns : list string;
  ra_strings_to_categorical : bool;
  ra_use_pandas_metadata : bool;
  ra_skip_rows : Z;
  ra_num_rows : Z;
  ra_row_group : Z;
  ra_row_group_count : Z;
  ra_timestamp_type : data_type
}.

Record table_with_metadata := mk_table_with_metadata {
  tbl : list Column;
  metadata : table_metadata
}.

(** The three entry points of [cudf/io/functions.hpp] the binding calls.
    [World] is the state of the byte sources and sinks, [Blob] the serialized
    footer ([std::vector<uint8_t>]), which the binding never looks into.
    The writer returns the vector behind its [unique_ptr]; when
    [return_filemetadata] is not set the binding ignores it. *)
Class libcudf_io (World Blob : Type) := {
  parquet_writer : write_parquet_args -> World -> result Blob * World;
  parquet_reader : read_parquet_args -> World -> result table_with_metadata;
  parquet_merge_metadata : list Blob -> result Blob
}.

(** [pyarrow.pandas_compat._backwards_compatible_index_name raw_name
    logical_name], a function of an external library: the name an index read
    back is given, [None] for the names pandas generates. *)
Class pyarrow_compat := {
  _backwards_compatible_index_name : string -> string -> option string
}.

(** ** [generate_pandas_metadata] *)

Definition category_msg : string :=
  "'category' column dtypes are currently not supported by the gpu accelerated parquet writer".

(** Modelled from the spec: [cudf.utils.dtypes.np_to_pa_dtype], which is not
    among the sources: the "Arrow-equivalent logical type" of a column type,
    by its name. *)
Definition np_to_pa_dtype (t : type_id) : string :=
  match t with
  | EMPTY => "null" | INT8 => "int8" | INT16 => "int16" | INT32 => "int32"
  | INT64 => "int64" | FLOAT32 => "float" | FLOAT64 => "double"
  | BOOL8 => "bool" | DATE32 => "date32" | TIMESTAMP => "timestamp"
  | CATEGORY => "dictionary" | STRING => "string"
  end.

Definition json_of_name (n : option string) : json :=
  match n with Some s => JStr s | None => JNull end.

(** Modelled from the spec: [pyarrow.pandas_compat.construct_metadata], an
    external library: "a JSON descriptor listing: ordered column names,
    ordered column Arrow-equivalent logical types, and a list of index
    descriptors"; with the index policy [False] no descriptor is listed. *)
Definition construct_metadata (col_names : list (option string))
    (index_levels : list Index) (index_descriptors : list json)
    (index : index_policy) (types : list string) : json :=
  JDict
    [("index_columns",
      JList (if is_not_False index then index_descriptors else []));
     ("columns",
      JList ((fun '(n, ty) =>
                JDict [("name", json_of_name n);
                       ("field_name", json_of_name n);
                       ("pandas_type", JStr ty)])
             <$> zip col_names types))].

(** The locals of [generate_pandas_metadata]. *)
Record pandas_md := mk_pandas_md {
  md_col_names : list (option string);
  md_types : list string;
  md_index_levels : list Index;
  md_index_descriptors : list json
}.

(** The loop over [table._data.items()]. *)
Fixpoint md_columns (items : list (string * Column)) (st : pandas_md)
    : result pandas_md :=
  match items with
  | [] => Ok st
  | (name, col) :: rest =>
      let col_names := md_col_names st ++ [Some name] in
      if is_categorical_dtype col then Raise (ValueError category_msg)
      else
        md_columns rest
          (mk_pandas_md col_names (md_types st ++ [np_to_pa_dtype (dtype col)])
             (md_index_levels st) (md_index_descriptors st))
  end.

Definition index_dtype (idx : Index) : type_id :=
  match idx with
  | RangeIndex _ _ _ => INT64
  | GenericIndex _ c => dtype c
  | MultiIndex _ => EMPTY
  end.

Definition is_categorical_index (idx : Index) : bool :=
  bool_decide (index_dtype idx = CATEGORY).

Definition range_descriptor (i : Index) : json :=
  match i with
  | RangeIndex n start stop =>
      JDict [("kind", JStr "range"); ("name", json_of_name n);
             ("start", JInt start); ("stop", JInt stop); ("step", JInt 1)]
  | _ => JNull
  end.

(** The loop over [table._index.names]. *)
Fixpoint md_indexes (table : Table) (names : list (option string))
    (st : pandas_md) : result pandas_md :=
  match names with
  | [] => Ok st
  | None :: rest =>
      md_indexes table rest
        (mk_pandas_md (md_col_names st ++ [None]) (md_types st)
           (md_index_levels st) (md_index_descriptors st))
  | Some name :: rest =>
      idx ← match _index table with
            | MultiIndex levels => get_level_values levels name
            | i => Ok i
            end;
      if isinstance_RangeIndex idx then
        md_indexes table rest
          (mk_pandas_md (md_col_names st) (md_types st) (md_index_levels st)
             (md_index_descriptors st ++ [range_descriptor (_index table)]))
      else
        let col_names := md_col_names st ++ [Some name] in
        if is_categorical_index idx then Raise (ValueError category_msg)
        else
          md_indexes table rest
            (mk_pandas_md col_names
               (md_types st ++ [np_to_pa_dtype (index_dtype idx)])
               (md_index_levels st ++ [idx])
               (md_index_descriptors st ++ [JStr name]))
  end.

Definition generate_pandas_metadata (table : Table) (index : index_policy)
    : result json :=
  st ← md_columns (_data table) (mk_pandas_md [] [] [] []);
  st ← (if is_not_False index
        then md_indexes table (index_names (_index table)) st
        else Ok st);
  Ok (construct_metadata (md_col_names st) (md_index_levels st)
        (md_index_descriptors st) index (md_types st)).

(** ** Python helpers *)

(** [str.encode(x)]: [x] is a string or [None]; the unbound method refuses
    [None] with a [TypeError]. *)
Definition str_encode (x : option string) : result string :=
  match x with
  | Some s => Ok s
  | None => Raise TypeError
  end.

Definition ascii_upper (c : ascii) : ascii :=
  let n := nat_of_ascii c in
  if ((97 <=? n) && (n <=? 122))%nat then ascii_of_nat (n - 32) else c.

(** [str.upper] on the letters that matter for the comparisons below: no
    character outside ASCII has an upper case among the letters of
    ["NONE"], ["ROWGROUP"] and ["PAGE"]. *)
Fixpoint str_upper (s : string) : string :=
  match s with
  | EmptyString => EmptyString
  | String c rest => String (ascii_upper c) (str_upper rest)
  end.

(** [vector::push_back] *)
Definition push_back {A} (v : list A) (x : A) : list A := v ++ [x].

(** [OrderedDict.__setitem__]: a known key keeps its position and takes the
    new value, a new key goes last. *)
Fixpoint odict_set {V} (d : list (string * V)) (k : string) (v : V)
    : list (string * V) :=
  match d with
  | [] => [(k, v)]
  | (k', v') :: rest =>
      if bool_decide (k' = k) then (k, v) :: rest
      else (k', v') :: odict_set rest k v
  end.

Definition odict_of_pairs {V} (l : list (string * V)) : list (string * V) :=
  fold_left (fun d '(k, v) => odict_set d k v) l [].

Fixpoint odict_get {V} (d : list (string * V)) (k : string) : option V :=
  match d with
  | [] => None
  | (k', v) :: rest => if bool_decide (k' = k) then Some v else odict_get rest k
  end.

Fixpoint odict_del {V} (d : list (string * V)) (k : string)
    : list (string * V) :=
  match d with
  | [] => []
  | (k', v) :: rest =>
      if bool_decide (k' = k) then rest else (k', v) :: odict_del rest k
  end.

(** [key in meta] *)
Definition py_contains (key : string) (meta : json) : result bool :=
  match meta with
  | JDict d => Ok (bool_decide (key ∈ d.*1))
  | JList l =>
      Ok (existsb (fun j => match j with
                            | JStr s => bool_decide (s = key)
                            | _ => false
                            end) l)
  | JStr s => Ok (bool_decide (is_Some (String.index 0 key s)))
  | _ => Raise TypeError
  end.

(** [meta[key]] for a string key *)
Definition py_getitem (meta : json) (key : string) : result json :=
  match meta with
  | JDict d =>
      match odict_get d key with
      | Some v => Ok v
      | None => Raise KeyError
      end
  | _ => Raise TypeError
  end.

(** [len(v)] *)
Definition py_len (v : json) : result Z :=
  match v with
  | JStr s => Ok (Z.of_nat (String.length s))
  | JList l => Ok (Z.of_nat (length l))
  | JDict d => Ok (Z.of_nat (length d))
  | _ => Raise TypeError
  end.

(** [v[0]]; the keys of a JSON object are strings, so [0] is never one. *)
Definition py_getitem0 (v : json) : result json :=
  match v with
  | JList (x :: _) => Ok x
  | JList [] => Raise IndexError
  | JStr (String c _) => Ok (JStr (String c EmptyString))
  | JStr EmptyString => Raise IndexError
  | JDict _ => Raise KeyError
  | _ => Raise TypeError
  end.

(** [BufferArrayFromVector]: the owner of the vector a libcudf call returned,
    exposed to Python through the buffer protocol. *)
Record BufferArrayFromVector (Blob : Type) := mk_BufferArrayFromVector {
  in_vec : Blob
}.
Arguments mk_BufferArrayFromVector {Blob} in_vec.
Arguments in_vec {Blob} b.

Definition set_ptr {Blob} (v : Blob) : BufferArrayFromVector Blob :=
  mk_BufferArrayFromVector v.

(** [np.asarray(buffer)], kept here as the vector the array is a view of;
    the shape of the array and its items are those of [np_asarray_rows]
    below. *)
Definition np_asarray {Blob} (b : BufferArrayFromVector Blob) : Blob := in_vec b.

(** Modelled from the spec: [Table.from_unique_ptr] and
    [DataFrame._from_table] of [cudf/_libxx/table.pyx] and
    [cudf/core/dataframe.py], which are not among the sources: the decoded
    columns under their names, in an ordered dictionary, and "its default
    index", the range over the rows. *)
Definition from_unique_ptr (c_tbl : list Column) (column_names : list string)
    : list (string * Column) :=
  odict_of_pairs (zip column_names c_tbl).

Definition num_rows_of (data : list (string * Column)) : Z :=
  match data with
  | [] => 0
  | (_, c) :: _ => column_size c
  end.

Definition _from_table (data : list (string * Column)) : Table :=
  mk_Table (RangeIndex None 0 (num_rows_of data)) data.

(** Modelled from the spec: [DataFrame.set_index] of
    [cudf/core/dataframe.py], which is not among the sources: the column "is
    removed from the data columns and promoted to index". *)
Definition set_index (df : Table) (name : string) : result Table :=
  match odict_get (_data df) name with
  | Some col => Ok (mk_Table (GenericIndex (Some name) col) (odict_del (_data df) name))
  | None => Raise KeyError
  end.

(** [df.index.name = name] *)
Definition set_index_name (df : Table) (name : option string) : Table :=
  mk_Table
    (match _index df with
     | RangeIndex _ start stop => RangeIndex name start stop
     | GenericIndex _ col => GenericIndex name col
     | MultiIndex levels => MultiIndex levels
     end)
    (_data df).

(** ** The binding *)

Section Binding.
Context {World Blob : Type} `{!libcudf_io World Blob} `{!pyarrow_compat}.

(** *** [read_parquet] *)

(** Lines 160-172: the reader arguments. *)
Definition setup_read_args (filepath_or_buffer : source_info)
    (columns : option (list string))
    (row_group row_group_count skip_rows num_rows : option Z)
    (strings_to_categorical use_pandas_metadata : bool)
    : result read_parquet_args :=
  let args_columns :=
    match columns with
    | Some cols => fold_left push_back cols []
    | None => []
    end in
  a_skip_rows ← to_size_type (match skip_rows with Some v => v | None => 0 end);
  a_num_rows ← to_size_type (match num_rows with Some v => v | None => -1 end);
  a_row_group ← to_size_type (match row_group with Some v => v | None => -1 end);
  a_row_group_count ←
    to_size_type (match row_group_count with Some v => v | None => -1 end);
  Ok (mk_read_parquet_args filepath_or_buffer args_columns
        strings_to_categorical use_pandas_metadata
        a_skip_rows a_num_rows a_row_group a_row_group_count
        (mk_data_type EMPTY)).

(** Lines 183-189: the first entry of [index_columns], or [''].  The
    result is a Python object, kept as the JSON value it is. *)
Definition find_index_col (json_str : ud_value) : result json :=
  let index_col := JStr "" in
  match json_str with
  | EmptyText => Ok index_col
  | OtherText _ => Raise (ValueError "JSONDecodeError")
  | JsonText meta =>
      present ← py_contains "index_columns" meta;
      if present : bool then
        v ← py_getitem meta "index_columns";
        n ← py_len v;
        if 0 <? n then py_getitem0 v else Ok index_col
      else Ok index_col
  end.

(** Lines 196-206.  The empty string is a single object in CPython, so
    [index_col is not ''] holds exactly of what is not the empty string. *)
Definition set_index_column (df : Table) (index_col : json)
    (column_names : list string) (use_pandas_metadata : bool)
    : result Table :=
  match index_col with
  | JStr s =>
      if bool_decide (s ≠ "") then
        if bool_decide (s ∈ column_names) then
          df ← set_index df s;
          match index_name (_index df) with
          | Some n =>
              Ok (set_index_name df (_backwards_compatible_index_name n n))
          | None => Raise TypeError
          end
        else if use_pandas_metadata then Ok (set_index_name df (Some s))
        else Ok df
      else Ok df
  | _ => Ok df
  end.

Definition read_parquet (filepath_or_buffer : source_info)
    (columns : option (list string))
    (row_group row_group_count skip_rows num_rows : option Z)
    (strings_to_categorical use_pandas_metadata : bool)
    (w : World) : result Table :=
  args ← setup_read_args filepath_or_buffer columns row_group
           row_group_count skip_rows num_rows strings_to_categorical
           use_pandas_metadata;
  c_out_table ← parquet_reader args w;
  let names := column_names (metadata c_out_table) in
  index_col ←
    find_index_col (user_data_at (user_data (metadata c_out_table)) "pandas");
  let df := _from_table (from_unique_ptr (tbl c_out_table) names) in
  set_index_column df index_col names use_pandas_metadata.

(** *** [write_parquet] *)

Definition compression_msg : string := "Unsupported `compression` type".
Definition statistics_msg : string := "Unsupported `statistics_freq` type".

(** Lines 238-239: the names of the levels of a [MultiIndex]. *)
Fixpoint push_index_names (names : list (option string))
    (column_names : list string) : result (list string) :=
  match names with
  | [] => Ok column_names
  | idx_name :: rest =>
      b ← str_encode idx_name;
      push_index_names rest (push_back column_names b)
  end.

(** Lines 231-248: the view handed to the encoder, and the column names that
    go with it. *)
Definition view_and_names (table : Table) (index : index_policy)
    : result (table_view * list string) :=
  let column_names : list string := [] in
  let tv := data_view table in
  '(tv, column_names) ←
    (if is_not_False index then
       let tv := view table in
       if isinstance_MultiIndex (_index table) then
         column_names ←
           push_index_names (index_names (_index table)) column_names;
         Ok (tv, column_names)
       else
         match index_name (_index table) with
         | Some name => Ok (tv, push_back column_names name)
         | None => Ok (data_view table, column_names)
         end
     else Ok (tv, column_names));
  Ok (tv, fold_left push_back (_column_names table) column_names).

(** Lines 257-263. *)
Definition compression_of (compression : option string)
    : result compression_type :=
  match compression with
  | None => Ok NONE
  | Some c =>
      if bool_decide (c = "snappy") then Ok SNAPPY
      else Raise (ValueError compression_msg)
  end.

(** Lines 265-274. *)
Definition statistics_of (statistics : string) : result statistics_freq :=
  let statistics := str_upper statistics in
  if bool_decide (statistics = "NONE") then Ok STATISTICS_NONE
  else if bool_decide (statistics = "ROWGROUP") then Ok STATISTICS_ROWGROUP
  else if bool_decide (statistics = "PAGE") then Ok STATISTICS_PAGE
  else Raise (ValueError statistics_msg).

(** Lines 225-289: everything [write_parquet] does before it calls the
    encoder. *)
Definition setup_write_args (table : Table) (path : string)
    (index : index_policy) (compression : option string)
    (statistics : string) (metadata_file_path : option string)
    : result write_parquet_args :=
  let sink := mk_sink_info path in
  '(tv, names) ← view_and_names table index;
  pandas_metadata ← generate_pandas_metadata table index;
  let user_data : gmap string ud_value :=
    <["pandas" := JsonText pandas_metadata]> ∅ in
  let tbl_meta := mk_table_metadata names user_data in
  comp_type ← compression_of compression;
  stat_freq ← statistics_of statistics;
  Ok (match metadata_file_path with
      | Some p =>
          mk_write_parquet_args sink tv tbl_meta comp_type stat_freq true p
      | None =>
          mk_write_parquet_args sink tv tbl_meta comp_type stat_freq false ""
      end).

Definition write_parquet (table : Table) (path : string)
    (index : index_policy) (compression : option string)
    (statistics : string) (metadata_file_path : option string)
    (w : World) : result (option Blob) * World :=
  match setup_write_args table path index compression statistics
          metadata_file_path with
  | Raise e => (Raise e, w)
  | Ok args =>
      match parquet_writer args w with
      | (Raise e, w') => (Raise e, w')
      | (Ok out_metadata_c, w') =>
          match metadata_file_path with
          | Some _ => (Ok (Some (np_asarray (set_ptr out_metadata_c))), w')
          | None => (Ok None, w')
          end
      end
  end.

End Binding.

(** ** A reference implementation of the libcudf interface

    The encoder, the decoder and the footer merger live in the C++ library
    and are not among the sources.  The definitions of this part follow the
    design document of the columnar I/O core. *)

Record row_group := mk_row_group {
  rg_file_path : string;
  rg_num_rows : Z
}.

(** A footer: "list of row groups with associated schema". *)
Record FileMetadata := mk_FileMetadata {
  fm_schema : list (string * type_id);
  fm_row_groups : list row_group
}.

(** What a written file holds: the columns under their on-disk names, the
    number of rows of each of its row groups, and the user metadata. *)
Record ParquetFile := mk_ParquetFile {
  pf_names : list string;
  pf_columns : list Column;
  pf_row_group_rows : list Z;
  pf_user_data : gmap string ud_value;
  pf_compression : compression_type
}.

Definition view_num_rows (tv : table_view) : Z :=
  match tv with
  | [] => 0
  | c :: _ => column_size c
  end.

Definition sum_Z (l : list Z) : Z := foldr Z.add 0 l.

(** Modelled from the spec: the writer of libcudf ([cudf::write_parquet]),
    which is not among the sources: it "encodes a Table + Metadata into
    Parquet bytes" at the sink and hands back the serialized footer. *)
Definition ref_parquet_writer (args : write_parquet_args)
    (w : gmap string ParquetFile)
    : result FileMetadata * gmap string ParquetFile :=
  let names := column_names (wa_metadata args) in
  let rows := view_num_rows (wa_table args) in
  let file :=
    mk_ParquetFile names (wa_table args) [rows]
      (user_data (wa_metadata args)) (wa_compression args) in
  let footer :=
    mk_FileMetadata (zip names (dtype <$> wa_table args))
      [mk_row_group (wa_metadata_out_file_path args) rows] in
  (Ok footer, <[sink_filepath (wa_sink args) := file]> w).

(** The rows [first, last) selected by [row_group] and [row_group_count];
    "both -1/unset means all row groups". *)
Definition row_group_range (sizes : list Z) (rg count : Z) : result (Z * Z) :=
  let n := Z.of_nat (length sizes) in
  if rg <? 0 then Ok (0, sum_Z sizes)
  else if n <=? rg then Raise (CppError OutOfRange)
  else
    let count := if count <? 0 then n - rg else count in
    if n <? rg + count then Raise (CppError OutOfRange)
    else
      Ok (sum_Z (take (Z.to_nat rg) sizes),
          sum_Z (take (Z.to_nat (rg + count)) sizes)).

(** The window [skip_rows], [num_rows] inside the rows [first, last);
    "-1/unset num_rows means to end". *)
Definition row_window (first last skip num : Z) : result (Z * Z) :=
  let avail := last - first in
  if (skip <? 0) || (avail <? skip) then Raise (CppError OutOfRange)
  else if num <? 0 then Ok (first + skip, last)
  else if avail <? skip + num then Raise (CppError OutOfRange)
  else Ok (first + skip, first + skip + num).

Definition slice_column (from to : Z) (c : Column) : Column :=
  mk_Column (dtype c)
    (take (Z.to_nat (to - from)) (drop (Z.to_nat from) (cells c))).

(** The requested columns, in the requested order; "a name absent from the
    file fails with an UnknownColumn error". *)
Fixpoint select_columns (stored : list (string * Column))
    (wanted : list string) : result (list (string * Column)) :=
  match wanted with
  | [] => Ok []
  | n :: rest =>
      match odict_get stored n with
      | Some c => sel ← select_columns stored rest; Ok ((n, c) :: sel)
      | None => Raise (CppError UnknownColumn)
      end
  end.

Definition to_categorical (c : Column) : Column :=
  if bool_decide (dtype c = STRING) then mk_Column CATEGORY (cells c) else c.

(** Modelled from the spec: the reader of libcudf ([cudf::read_parquet]),
    which is not among the sources: it decodes "the selected row-group range
    and row window into device-resident Columns with original on-disk names"
    and surfaces the user metadata unmodified. *)
Definition ref_parquet_reader (args : read_parquet_args)
    (w : gmap string ParquetFile) : result table_with_metadata :=
  match w !! source_filepath (ra_source args) with
  | None => Raise (CppError IONotFound)
  | Some file =>
      '(first, last) ← row_group_range (pf_row_group_rows file)
                         (ra_row_group args) (ra_row_group_count args);
      '(from, to) ← row_window first last (ra_skip_rows args) (ra_num_rows args);
      let stored := zip (pf_names file) (pf_columns file) in
      selected ← match ra_columns args with
                 | [] => Ok stored
                 | wanted => select_columns stored wanted
                 end;
      let decode c :=
        let c := slice_column from to c in
        if ra_strings_to_categorical args then to_categorical c else c in
      Ok (mk_table_with_metadata (decode <$> selected.*2)
            (mk_table_metadata selected.*1 (pf_user_data file)))
  end.

Definition schema_eqb (a b : list (string * type_id)) : bool :=
  bool_decide (a = b).

(** Modelled from the spec: the footer merger of libcudf
    ([cudf::merge_rowgroup_metadata]), which is not among the sources: "row
    groups from each input blob are concatenated, in input-list order";
    "schemas across inputs must be identical (same column names/types in same
    order) — a mismatch fails with a SchemaMismatch error.  Empty input list
    fails with an InvalidArgument error." *)
Definition ref_merge_rowgroup_metadata (blobs : list FileMetadata)
    : result FileMetadata :=
  match blobs with
  | [] => Raise (CppError InvalidArgument)
  | first :: rest =>
      if forallb (fun b => schema_eqb (fm_schema first) (fm_schema b)) rest
      then Ok (mk_FileMetadata (fm_schema first)
                 (concat (fm_row_groups <$> blobs)))
      else Raise (CppError SchemaMismatch)
  end.

#[global] Instance ref_libcudf
    : libcudf_io (gmap string ParquetFile) FileMetadata := {
  parquet_writer := ref_parquet_writer;
  parquet_reader := ref_parquet_reader;
  parquet_merge_metadata := ref_merge_rowgroup_metadata
}.

(** pyarrow drops the names pandas generates for unnamed index levels,
    those matching the regular expression [^__index_level_\d+__$], whose [$]
    also matches before a final newline. *)
Fixpoint strip_prefix (p s : string) : option string :=
  match p, s with
  | EmptyString, _ => Some s
  | String a p', String b s' =>
      if bool_decide (a = b) then strip_prefix p' s' else None
  | String _ _, EmptyString => None
  end.

Definition is_digit (c : ascii) : bool :=
  let n := nat_of_ascii c in ((48 <=? n) && (n <=? 57))%nat.

Fixpoint digits_then_end (seen : bool) (s : string) : bool :=
  match s with
  | EmptyString => false
  | String c rest =>
      if is_digit c then digits_then_end true rest
      else seen && (bool_decide (s = "__")
                    || bool_decide (s = String "_" (String "_" (String "010" EmptyString))))
  end.

Definition ref_is_generated_index_name (name : string) : bool :=
  match strip_prefix "__index_level_" name with
  | Some rest => digits_then_end false rest
  | None => false
  end.

Definition ref_backwards_compatible_index_name (raw_name logical_name : string)
    : option string :=
  if bool_decide (raw_name = logical_name)
     && ref_is_generated_index_name raw_name
  then None
  else Some raw_name.

#[global] Instance ref_pyarrow_compat : pyarrow_compat := {
  _backwards_compatible_index_name := ref_backwards_compatible_index_name
}.

(** ** Predicates used in the statements *)

(** No level of a [MultiIndex] is unnamed. *)
Definition levels_all_named (i : Index) : Prop :=
  match i with
  | MultiIndex levels => Forall is_Some (levels.*1)
  | _ => True
  end.

(** A CATEGORY-typed level among those [generate_pandas_metadata] looks at:
    a named single-level index, or what [get_level_values] returns for one of
    the names of a [MultiIndex]. *)
Definition category_level_checked (i : Index) : Prop :=
  match i with
  | RangeIndex _ _ _ => False
  | GenericIndex name col => is_Some name /\ dtype col = CATEGORY
  | MultiIndex levels =>
      exists n idx,
        Some n ∈ levels.*1 /\ get_level_values levels n = Ok idx /\
        index_dtype idx = CATEGORY
  end.

(** "All columns share identical row count." *)
Definition aligned (cols : list Column) : Prop :=
  Forall (fun c => column_size c = view_num_rows cols) cols.

(** A pandas descriptor of a range index named ["idx"], as the write path
    produces it, in the user metadata of a file with one column of three
    rows. *)
Definition range_descr_idx : json :=
  JDict [("kind", JStr "range"); ("name", JStr "idx");
         ("start", JInt 0); ("stop", JInt 3); ("step", JInt 1)].

Definition col_x : Column :=
  mk_Column INT32 [Some (SInt 1); None; Some (SInt 3)].

Definition file_with_range_index : ParquetFile :=
  mk_ParquetFile ["x"] [col_x] [3]
    (<["pandas" := JsonText (JDict [("index_columns", JList [range_descr_idx])])]> ∅)
    NONE.

(** Small tables of three rows. *)
Definition col_a : Column :=
  mk_Column INT64 [Some (SInt 10); Some (SInt 20); Some (SInt 30)].

Definition col_b : Column :=
  mk_Column STRING [Some (SStr "p"); Some (SStr "q"); None].

Definition col_cat : Column :=
  mk_Column CATEGORY [Some (SInt 0); Some (SInt 1); Some (SInt 0)].

Definition table_named_index : Table :=
  mk_Table (GenericIndex (Some "a") col_a) [("x", col_x)].

Definition table_unnamed_index : Table :=
  mk_Table (GenericIndex None col_a) [("x", col_x)].

Definition table_multi_index : Table :=
  mk_Table (MultiIndex [(Some "a", col_a); (Some "b", col_b)]) [("x", col_x)].

Definition table_category : Table :=
  mk_Table (RangeIndex None 0 3) [("x", col_x); ("c", col_cat)].

Definition table_category_index : Table :=
  mk_Table (GenericIndex (Some "c") col_cat) [("x", col_x)].

Definition table_unnamed_category_index : Table :=
  mk_Table (GenericIndex None col_cat) [("x", col_x)].

Definition table_unnamed_level : Table :=
  mk_Table (MultiIndex [(None, col_a); (Some "c", col_cat)]) [("x", col_x)].

Definition table_category_unnamed_level : Table :=
  mk_Table (MultiIndex [(None, col_a); (Some "b", col_b)])
    [("x", col_x); ("c", col_cat)].

Definition table_repeated_level : Table :=
  mk_Table (MultiIndex [(Some "a", col_a); (Some "a", col_b)])
    [("x", col_x); ("c", col_cat)].

Definition table_empty_index_name : Table :=
  mk_Table (GenericIndex (Some "") col_a) [("x", col_x)].

Definition table_index_named_as_column : Table :=
  mk_Table (GenericIndex (Some "x") col_a) [("x", col_x)].

Definition file_with_named_index : ParquetFile :=
  mk_ParquetFile ["a"; "x"] [col_a; col_x] [3]
    (<["pandas" := JsonText (JDict [("index_columns", JList [JStr "a"])])]> ∅)
    NONE.

Definition no_files : gmap string ParquetFile := ∅.

Definition footer_of (file : string) (rows : Z) : FileMetadata :=
  mk_FileMetadata [("x", INT32)] [mk_row_group file rows].

(** ** [BufferArrayFromVector], with the vector as the bytes it holds

    The class as it is written, for a vector of bytes: [length] is a C
    [unsigned], 32 bits wide, so the [size_t] size of the vector is reduced
    modulo [2^32] when it is stored; [shape] and [strides] are the two C
    arrays of the object, zero before the first [__getbuffer__]. *)

Definition unsigned_modulus : Z := 2 ^ 32.

Record BufferArray := mk_BufferArray {
  ba_length : Z;
  ba_in_vec : list Byte.byte;
  ba_shape : list Z;
  ba_strides : list Z
}.

(** The view [__getbuffer__] fills in.  [pb_buf] is the memory [buf] points
    to, the elements of the vector from its first on; [None] is a [NULL]
    field. *)
Record Py_buffer := mk_Py_buffer {
  pb_buf : list Byte.byte;
  pb_format : option string;
  pb_internal : option unit;
  pb_itemsize : Z;
  pb_len : Z;
  pb_ndim : Z;
  pb_readonly : Z;
  pb_shape : list Z;
  pb_strides : list Z;
  pb_suboffsets : option (list Z)
}.

(** [BufferArrayFromVector()] *)
Definition BufferArray_new : BufferArray := mk_BufferArray 0 [] [0; 0] [0; 0].

(** [set_ptr], lines 51-53. *)
Definition BufferArray_set_ptr (self : BufferArray) (in_vec : list Byte.byte)
    : BufferArray :=
  mk_BufferArray (Z.of_nat (length in_vec) mod unsigned_modulus) in_vec
    (ba_shape self) (ba_strides self).

(** [__getbuffer__], lines 55-75: the object with its [shape] and [strides]
    set, and the buffer. *)
Definition BufferArray_getbuffer (self : BufferArray) (flags : Z)
    : BufferArray * Py_buffer :=
  let itemsize := 1 in
  let shape := [1; ba_length self] in
  let strides := [1 * ba_length self; 1] in
  let self := mk_BufferArray (ba_length self) (ba_in_vec self) shape strides in
  (self,
   mk_Py_buffer (ba_in_vec self) None None itemsize
     (ba_length self * itemsize) 2 0 (ba_shape self) (ba_strides self) None).

(** [__releasebuffer__], lines 77-78. *)
Definition BufferArray_releasebuffer (self : BufferArray) (buffer : Py_buffer)
    : BufferArray := self.

Definition product_Z (l : list Z) : Z := foldr Z.mul 1 l.

(** The item [i, j] of a two-dimensional buffer: the byte at offset
    [i * strides[0] + j * strides[1]], [None] when that is outside the
    memory behind [buf]. *)
Definition buffer_item (b : Py_buffer) (i j : nat) : option Byte.byte :=
  match pb_strides b with
  | [s0; s1] => pb_buf b !! Z.to_nat (Z.of_nat i * s0 + Z.of_nat j * s1)
  | _ => None
  end.

(** [np.asarray] of a two-dimensional byte buffer: its rows. *)
Definition np_asarray_rows (b : Py_buffer) : list (list (option Byte.byte)) :=
  match pb_shape b with
  | [n0; n1] =>
      (fun i => (fun j => buffer_item b i j) <$> seq 0 (Z.to_nat n1))
      <$> seq 0 (Z.to_nat n0)
  | _ => []
  end.

(** ** [merge_filemetadata]

    What the function is handed, blob by blob: a [bytes] object, or an array
    as [np.asarray] builds it over a [BufferArrayFromVector], which is what
    [write_parquet] (lines 296-298) and [merge_filemetadata] itself (lines
    320-322) return. *)
Inductive py_blob :=
  | PyBytes (data : list Byte.byte)
  | PyArray2 (rows : list (list (option Byte.byte))).

(** The conversion of one item of an array to [uint8_t]: the items of a
    two-dimensional array are its rows, and numpy turns an array into a
    Python integer only if it has exactly one element; it raises a
    [TypeError] otherwise. *)
Definition uint8_of_row (row : list (option Byte.byte)) : result Byte.byte :=
  match row with
  | [Some b] => Ok b
  | _ => Raise TypeError
  end.

Fixpoint rows_to_vector (rows : list (list (option Byte.byte)))
    : result (list Byte.byte) :=
  match rows with
  | [] => Ok []
  | row :: rest =>
      b ← uint8_of_row row;
      v ← rows_to_vector rest;
      Ok (b :: v)
  end.

(** Line 315, [blob_c = blob_py]: the Python object is iterated and each of
    its items converted to [uint8_t]; the items of a [bytes] object are its
    bytes. *)
Definition vector_from_py (blob_py : py_blob) : result (list Byte.byte) :=
  match blob_py with
  | PyBytes data => Ok data
  | PyArray2 rows => rows_to_vector rows
  end.

(** Lines 314-316. *)
Fixpoint push_blobs (filemetadata_list : list py_blob)
    (list_c : list (list Byte.byte)) : result (list (list Byte.byte)) :=
  match filemetadata_list with
  | [] => Ok list_c
  | blob_py :: rest =>
      blob_c ← vector_from_py blob_py;
      push_blobs rest (push_back list_c blob_c)
  end.

(** [BufferArrayFromVector()], [set_ptr] and [np.asarray], lines 296-298 and
    320-322. *)
Definition asarray_of_vector (v : list Byte.byte) : py_blob :=
  PyArray2
    (np_asarray_rows
       (BufferArray_getbuffer (BufferArray_set_ptr BufferArray_new v) 0).2).

Definition merge_filemetadata {World : Type}
    `{!libcudf_io World (list Byte.byte)} (filemetadata_list : list py_blob)
    : result py_blob :=
  list_c ← push_blobs filemetadata_list [];
  output_c ← parquet_merge_metadata list_c;
  Ok (asarray_of_vector output_c).

(** An engine that hands its inputs back: its merger returns the
    concatenation of the vectors it is given. *)
Definition echo_libcudf : libcudf_io unit (list Byte.byte) :=
  {| parquet_writer := fun _ w => (Ok [], w);
     parquet_reader := fun _ _ => Raise (CppError InvalidArgument);
     parquet_merge_metadata := fun l => Ok (concat l) |}.

Definition footer_bytes : list Byte.byte :=
  [Byte.x50; Byte.x41; Byte.x52; Byte.x31].

(** A file written without pandas metadata. *)
Definition file_without_metadata : ParquetFile :=
  mk_ParquetFile ["a"; "x"] [col_a; col_x] [3] ∅ NONE.

Definition table_named_range : Table :=
  mk_Table (RangeIndex (Some "r") 0 3) [("x", col_x)].

(** The names the loop of [md_indexes] goes through are names of the index. *)
Definition names_of_index (table : Table) (names : list (option string))
    : Prop :=
  forall levels, _index table = MultiIndex levels -> names ⊆ levels.*1.

(** A file whose pandas metadata has [null] for [index_columns]. *)
Definition file_with_null_index_columns : ParquetFile :=
  mk_ParquetFile ["a"; "x"] [col_a; col_x] [3]
    (<["pandas" := JsonText (JDict [("index_columns", JNull)])]> ∅)
    NONE.

(** * Properties *)

(** ** Bookkeeping lemmas *)

Lemma bind_Ok {A B} (f : A -> result B) (a : A) : (Ok a ≫= f) = f a.
Proof. reflexivity. Qed.

Lemma fold_push_back {A} (l acc : list A) :
  fold_left push_back l acc = acc ++ l.
Proof.
  revert acc; induction l as [|x l IH]; intros acc; simpl.
  - by rewrite app_nil_r.
  - rewrite IH. unfold push_back. by rewrite <- app_assoc.
Qed.

Lemma push_index_names_Some (names : list string) (acc : list string) :
  push_index_names (Some <$> names) acc = Ok (acc ++ names).
Proof.
  revert acc; induction names as [|n names IH]; intros acc; simpl.
  - by rewrite app_nil_r.
  - rewrite IH. unfold push_back. by rewrite <- app_assoc.
Qed.

Lemma push_index_names_Ok (names : list (option string)) (acc out : list string) :
  push_index_names names acc = Ok out ->
  exists l, names = Some <$> l /\ out = acc ++ l.
Proof.
  revert acc; induction names as [|[n|] names IH]; intros acc; simpl.
  - intros [= <-]. exists []. by rewrite app_nil_r.
  - intros Hrec. destruct (IH _ Hrec) as (l & -> & ->).
    exists (n :: l). unfold push_back. by rewrite <- app_assoc.
  - discriminate.
Qed.

Lemma str_upper_idempotent (s : string) : str_upper (str_upper s) = str_upper s.
Proof.
  induction s as [|c s IH]; simpl; [done |]. f_equal; [| done].
  clear. unfold ascii_upper.
  destruct ((97 <=? nat_of_ascii c)%nat && (nat_of_ascii c <=? 122)%nat) eqn:Hc.
  - apply andb_prop in Hc as [H1 H2].
    apply Nat.leb_le in H1. apply Nat.leb_le in H2.
    rewrite nat_ascii_embedding by lia.
    replace ((97 <=? nat_of_ascii c - 32)%nat) with false; [done |].
    symmetry. apply Nat.leb_gt. lia.
  - by rewrite Hc.
Qed.

Lemma statistics_of_upper (statistics : string) :
  statistics_of (str_upper statistics) = statistics_of statistics.
Proof. unfold statistics_of. by rewrite str_upper_idempotent. Qed.

(** ** The write path before the encoder *)

Lemma view_and_names_unfold (table : Table) (index : index_policy) :
  view_and_names table index =
  if is_not_False index then
    if isinstance_MultiIndex (_index table) then
      idx_names ← push_index_names (index_names (_index table)) [];
      Ok (view table, idx_names ++ _column_names table)
    else
      match index_name (_index table) with
      | Some name => Ok (view table, [name] ++ _column_names table)
      | None => Ok (data_view table, _column_names table)
      end
  else Ok (data_view table, _column_names table).
Proof.
  unfold view_and_names.
  destruct (is_not_False index); simpl; [| by rewrite fold_push_back].
  destruct (isinstance_MultiIndex (_index table)).
  - destruct (push_index_names _ _); simpl; [| done].
    by rewrite fold_push_back.
  - destruct (index_name (_index table)); simpl; by rewrite fold_push_back.
Qed.

(** What a successful [setup_write_args] went through. *)
Lemma setup_write_args_Ok (table : Table) path index compression statistics
    metadata_file_path (args : write_parquet_args) :
  setup_write_args table path index compression statistics metadata_file_path
    = Ok args ->
  exists tv names md comp stat,
    view_and_names table index = Ok (tv, names) /\
    generate_pandas_metadata table index = Ok md /\
    compression_of compression = Ok comp /\
    statistics_of statistics = Ok stat /\
    wa_sink args = mk_sink_info path /\
    wa_table args = tv /\
    wa_metadata args
      = mk_table_metadata names (<["pandas" := JsonText md]> ∅) /\
    wa_compression args = comp /\
    wa_stats_level args = stat /\
    wa_return_filemetadata args = bool_decide (is_Some metadata_file_path) /\
    wa_metadata_out_file_path args = default "" metadata_file_path.
Proof.
  unfold setup_write_args.
  destruct (view_and_names table index) as [[tv names]|]; simpl; [| done].
  destruct (generate_pandas_metadata table index) as [md|]; simpl; [| done].
  destruct (compression_of compression) as [comp|]; simpl; [| done].
  destruct (statistics_of statistics) as [stat|]; simpl; [| done].
  intros [= <-]. exists tv, names, md, comp, stat.
  destruct metadata_file_path; simpl; repeat split; done.
Qed.

(** A failing [setup_write_args] leaves the sink alone, whatever the
    encoder is. *)
Lemma write_parquet_setup_Raise `{!libcudf_io World Blob} (table : Table)
    path index compression statistics metadata_file_path (w : World) e :
  setup_write_args table path index compression statistics metadata_file_path
    = Raise e ->
  write_parquet table path index compression statistics metadata_file_path w
    = (Raise e, w).
Proof. intros H. unfold write_parquet. by rewrite H. Qed.

Lemma compression_of_cases (compression : option string) :
  (compression = None /\ compression_of compression = Ok NONE) \/
  (compression = Some "snappy" /\ compression_of compression = Ok SNAPPY) \/
  (compression <> None /\ compression <> Some "snappy" /\
   compression_of compression = Raise (ValueError compression_msg)).
Proof.
  destruct compression as [c|]; [| by left].
  unfold compression_of. case_bool_decide as Hc.
  - subst. right; left. done.
  - right; right. repeat split; [done | congruence].
Qed.

Lemma statistics_of_cases (statistics : string) :
  (str_upper statistics = "NONE" /\
   statistics_of statistics = Ok STATISTICS_NONE) \/
  (str_upper statistics = "ROWGROUP" /\
   statistics_of statistics = Ok STATISTICS_ROWGROUP) \/
  (str_upper statistics = "PAGE" /\
   statistics_of statistics = Ok STATISTICS_PAGE) \/
  (str_upper statistics <> "NONE" /\ str_upper statistics <> "ROWGROUP" /\
   str_upper statistics <> "PAGE" /\
   statistics_of statistics = Raise (ValueError statistics_msg)).
Proof.
  unfold statistics_of. repeat case_bool_decide; naive_solver.
Qed.

(** C10: when the index policy is not [False] and the table has a
    single-level index whose name is [None], the writer falls back, without
    any error, to the data columns alone: the view handed to the encoder is
    the data view, without the index column, and the [column_names] of the
    metadata are the data column names, with no index name added. *)
Theorem unnamed_index_falls_back_to_data_columns (table : Table)
    (index : index_policy) :
  index <> IndexFalse ->
  isinstance_MultiIndex (_index table) = false ->
  index_name (_index table) = None ->
  view_and_names table index = Ok (data_view table, _column_names table) /\
  forall path compression statistics metadata_file_path args,
    setup_write_args table path index compression statistics
      metadata_file_path = Ok args ->
    wa_table args = data_columns table /\
    column_names (wa_metadata args) = fst <$> _data table.
Proof.
  intros Hidx Hmulti Hname.
  assert (Hvn : view_and_names table index
                = Ok (data_view table, _column_names table)).
  { rewrite view_and_names_unfold, Hmulti, Hname. by destruct index. }
  split; [done |].
  intros path compression statistics metadata_file_path args Hargs.
  apply setup_write_args_Ok in Hargs
    as (tv & names & md & comp & stat & Hvn' & _ & _ & _ & _ & Htv & Hmd & _).
  rewrite Hvn in Hvn'. injection Hvn' as <- <-.
  rewrite Htv, Hmd. done.
Qed.

(** C3: in every write call that embeds an index (the policy is not [False]
    and the index is a [MultiIndex] or carries a name), the [column_names]
    handed to the encoder list the index names first and follow the physical
    order of the view: the view is the [k] index columns followed by the data
    columns, and the names are the [k] index names followed by the data
    column names, in table order. *)
Theorem embedded_index_names_match_view (table : Table) (path : string)
    (index : index_policy) (compression : option string) (statistics : string)
    (metadata_file_path : option string) (args : write_parquet_args) :
  index <> IndexFalse ->
  isinstance_MultiIndex (_index table) = true
    \/ index_name (_index table) <> None ->
  setup_write_args table path index compression statistics metadata_file_path
    = Ok args ->
  exists idx_names : list string,
    index_names (_index table) = Some <$> idx_names /\
    length idx_names = length (index_columns (_index table)) /\
    column_names (wa_metadata args) = idx_names ++ _column_names table /\
    wa_table args = index_columns (_index table) ++ data_columns table /\
    length (column_names (wa_metadata args)) = length (wa_table args).
Proof.
  intros Hidx Hemb Hargs.
  apply setup_write_args_Ok in Hargs
    as (tv & names & md & comp & stat & Hvn & _ & _ & _ & _ & Htv & Hmd & _).
  rewrite Htv, Hmd; simpl. clear Htv Hmd.
  rewrite view_and_names_unfold in Hvn.
  replace (is_not_False index) with true in Hvn by (by destruct index).
  assert (Hlen : forall l : list string,
            index_names (_index table) = Some <$> l ->
            length l = length (index_columns (_index table))).
  { intros l Hl. apply (f_equal length) in Hl.
    rewrite length_fmap in Hl. rewrite <- Hl.
    destruct (_index table); simpl; by rewrite ?length_fmap. }
  destruct (isinstance_MultiIndex (_index table)) eqn:Hmulti.
  - destruct (push_index_names _ _) as [idx_names|] eqn:Hpush; [| done].
    simpl in Hvn. injection Hvn as <- <-.
    apply push_index_names_Ok in Hpush as (l & Hl & ->). simpl.
    exists l. repeat split; auto.
    unfold view, _column_names, data_columns.
    rewrite !length_app, !length_fmap. by rewrite (Hlen l Hl).
  - destruct Hemb as [|Hname]; [done |].
    destruct (index_name (_index table)) as [name|] eqn:Hn; [| done].
    injection Hvn as <- <-.
    assert (Hl : index_names (_index table) = Some <$> [name]).
    { destruct (_index table); simpl in *; congruence. }
    exists [name]. repeat split; auto.
    unfold view, _column_names, data_columns.
    rewrite (length_app (index_columns _)), <- (Hlen [name] Hl); simpl.
    by rewrite !length_fmap.
Qed.

(** ** The category check of [generate_pandas_metadata] *)

Lemma md_columns_Raise (items : list (string * Column)) (st : pandas_md) :
  Exists (fun c => dtype c = CATEGORY) (items.*2) ->
  md_columns items st = Raise (ValueError category_msg).
Proof.
  revert st; induction items as [|[n c] items IH]; intros st Hex; simpl in *.
  - by apply Exists_nil in Hex.
  - unfold is_categorical_dtype. case_bool_decide as Hc; [done |].
    apply Exists_cons in Hex as [Hex|Hex]; [done |]. by apply IH.
Qed.

Lemma md_columns_Ok (items : list (string * Column)) (st : pandas_md) :
  Forall (fun c => dtype c <> CATEGORY) (items.*2) ->
  md_columns items st
  = Ok (mk_pandas_md (md_col_names st ++ (Some <$> items.*1))
          (md_types st ++ ((fun c => np_to_pa_dtype (dtype c)) <$> items.*2))
          (md_index_levels st) (md_index_descriptors st)).
Proof.
  revert st; induction items as [|[n c] items IH]; intros st Hall; simpl in *.
  - rewrite !app_nil_r. by destruct st.
  - apply Forall_cons in Hall as [Hc Hall].
    unfold is_categorical_dtype. rewrite bool_decide_eq_false_2 by done.
    rewrite IH by done. simpl. by rewrite <- !app_assoc.
Qed.

Lemma md_columns_error (items : list (string * Column)) (st : pandas_md) e :
  md_columns items st = Raise e -> e = ValueError category_msg.
Proof.
  revert st; induction items as [|[n c] items IH]; intros st; simpl.
  - discriminate.
  - destruct (is_categorical_dtype c); [by intros [= <-] | apply IH].
Qed.

Lemma get_level_values_Ok (levels : list (option string * Column))
    (n : string) (idx : Index) :
  get_level_values levels n = Ok idx ->
  exists c, idx = GenericIndex (Some n) c /\ (Some n, c) ∈ levels.
Proof.
  induction levels as [|[n' c'] levels IH]; simpl; [done |].
  case_bool_decide as Hn.
  - intros [= <-]. subst n'. exists c'. split; [done |].
    apply elem_of_cons. by left.
  - intros H. destruct (IH H) as (c & -> & Hin). exists c. split; [done |].
    apply elem_of_cons. by right.
Qed.

Lemma get_level_values_named (levels : list (option string * Column))
    (n : string) :
  Some n ∈ levels.*1 -> exists idx, get_level_values levels n = Ok idx.
Proof.
  induction levels as [|[n' c'] levels IH]; simpl.
  - intros H. by apply elem_of_nil in H.
  - intros H. case_bool_decide as Hn; [eauto |].
    apply elem_of_cons in H as [H|H]; [congruence | by apply IH].
Qed.

Lemma names_of_index_all (table : Table) :
  names_of_index table (index_names (_index table)).
Proof. intros levels Hi. rewrite Hi. done. Qed.

Lemma names_of_index_tail (table : Table) n names :
  names_of_index table (n :: names) -> names_of_index table names.
Proof.
  intros H levels Hi x Hx. apply (H levels Hi), elem_of_cons. by right.
Qed.

Lemma md_index_level (table : Table) (names : list (option string))
    (name : string) :
  names_of_index table (Some name :: names) ->
  exists idx,
    match _index table with
    | MultiIndex levels => get_level_values levels name
    | i => Ok i
    end = Ok idx /\
    index_dtype idx ∈ dtype <$> index_columns (_index table).
Proof.
  intros Hnames. destruct (_index table) as [n a b|n c|levels] eqn:Hi.
  - eexists. split; [done |]. simpl. apply elem_of_cons. by left.
  - eexists. split; [done |]. simpl. apply elem_of_cons. by left.
  - assert (Hin : Some name ∈ levels.*1)
      by (apply (Hnames levels Hi), elem_of_cons; by left).
    destruct (get_level_values_named levels name Hin) as [idx Hidx].
    exists idx. split; [done |].
    apply get_level_values_Ok in Hidx as (c & -> & Hc). simpl.
    apply list_elem_of_fmap. exists c. split; [done |].
    apply list_elem_of_fmap. by exists (Some name, c).
Qed.

(** The loop over the names of the index raises the category error as soon
    as the level it has under one of the names is CATEGORY-typed, if not
    before, on another level. *)
Lemma md_indexes_category (table : Table) (names : list (option string))
    (st : pandas_md) :
  names_of_index table names ->
  (exists n idx,
     Some n ∈ names /\
     match _index table with
     | MultiIndex levels => get_level_values levels n
     | i => Ok i
     end = Ok idx /\
     index_dtype idx = CATEGORY) ->
  md_indexes table names st = Raise (ValueError category_msg).
Proof.
  revert st.
  induction names as [|[m|] names IH];
    intros st Hnames (n & idx & Hn & Hidx & Hcat).
  - by apply elem_of_nil in Hn.
  - simpl.
    destruct (md_index_level table names m Hnames) as (idx' & Hidx' & _).
    rewrite Hidx'. simpl. apply names_of_index_tail in Hnames.
    apply elem_of_cons in Hn as [[= ->]|Hn].
    + rewrite Hidx in Hidx'. injection Hidx' as <-.
      unfold is_categorical_index. rewrite bool_decide_eq_true_2 by done.
      by destruct idx.
    + destruct (isinstance_RangeIndex idx'); [apply IH; eauto |].
      destruct (is_categorical_index idx'); [done | apply IH; eauto].
  - simpl. apply names_of_index_tail in Hnames.
    apply elem_of_cons in Hn as [|Hn]; [done |]. apply IH; eauto.
Qed.

Lemma Forall_is_Some_fmap (l : list (option string)) :
  Forall is_Some l -> exists l', l = Some <$> l'.
Proof.
  induction 1 as [|x l [y ->] _ [l' ->]]; [by exists [] |].
  by exists (y :: l').
Qed.

Lemma view_and_names_named (table : Table) (index : index_policy) :
  (index <> IndexFalse -> levels_all_named (_index table)) ->
  exists tv names, view_and_names table index = Ok (tv, names).
Proof.
  intros Hwf. rewrite view_and_names_unfold.
  destruct index; simpl; eauto.
  all: destruct (_index table) as [n ? ?|n ?|levels]; simpl in *.
  all: try (destruct n; eauto).
  all: assert (Hall : Forall is_Some levels.*1) by (by apply Hwf).
  all: apply Forall_is_Some_fmap in Hall as [l ->].
  all: rewrite push_index_names_Some; simpl; eauto.
Qed.

Lemma generate_pandas_metadata_category (table : Table) (index : index_policy) :
  Exists (fun c => dtype c = CATEGORY) (data_columns table)
    \/ (index <> IndexFalse /\ category_level_checked (_index table)) ->
  generate_pandas_metadata table index = Raise (ValueError category_msg).
Proof.
  intros Hcat. unfold generate_pandas_metadata.
  destruct (md_columns (_data table) _) as [st|e] eqn:Hcols; simpl.
  2: { by rewrite (md_columns_error _ _ _ Hcols). }
  destruct Hcat as [Hdata|[Hidx Hlevel]].
  { rewrite md_columns_Raise in Hcols by done. done. }
  replace (is_not_False index) with true by (by destruct index).
  rewrite md_indexes_category; [done | apply names_of_index_all |].
  destruct (_index table) as [n ? ?|n col|levels] eqn:Hi; simpl in *.
  - done.
  - destruct Hlevel as [[name ->] Hc].
    exists name, (GenericIndex (Some name) col).
    split; [apply elem_of_cons; by left | done].
  - destruct Hlevel as (n & idx & Hin & Hlookup & Hc). by exists n, idx.
Qed.

(** ** Failures of the write path *)

Section WriteFailures.
Context {World Blob : Type} `{!libcudf_io World Blob}.

(** C4 (amended): for every table which has no unnamed [MultiIndex] level
    when its index is embedded, and which contains a CATEGORY-typed data
    column, or, under an index policy other than [False], a CATEGORY-typed
    index level that the metadata generation looks at (a named single-level
    index, or the level [get_level_values] returns for a name of a
    [MultiIndex]), the write fails with the [ValueError] of the category
    check, and the sink is as it was before the call. *)
Theorem category_write_fails (table : Table) (path : string)
    (index : index_policy) (compression : option string) (statistics : string)
    (metadata_file_path : option string) (w : World) :
  (index <> IndexFalse -> levels_all_named (_index table)) ->
  Exists (fun c => dtype c = CATEGORY) (data_columns table)
    \/ (index <> IndexFalse /\ category_level_checked (_index table)) ->
  write_parquet table path index compression statistics metadata_file_path w
  = (Raise (ValueError category_msg), w).
Proof.
  intros Hwf Hcat. apply write_parquet_setup_Raise.
  unfold setup_write_args.
  destruct (view_and_names_named table index Hwf) as (tv & names & ->).
  simpl. by rewrite generate_pandas_metadata_category.
Qed.

(** C5 (amended): the compression option is [None] (NONE) or ["snappy"]
    (SNAPPY); with any other value the write fails and the sink is as it was
    before the call, and the error is the [ValueError] of the compression
    check whenever the steps that come before it (the encoding of the index
    names and the generation of the pandas metadata, with its category check)
    have not failed already. *)
Theorem unsupported_compression_fails (table : Table) (path : string)
    (index : index_policy) (compression : option string) (statistics : string)
    (metadata_file_path : option string) (w : World) :
  compression <> None ->
  compression <> Some "snappy" ->
  compression_of compression = Raise (ValueError compression_msg) /\
  (exists e,
     write_parquet table path index compression statistics
       metadata_file_path w = (Raise e, w)) /\
  (is_Ok (view_and_names table index) = true ->
   is_Ok (generate_pandas_metadata table index) = true ->
   write_parquet table path index compression statistics metadata_file_path w
   = (Raise (ValueError compression_msg), w)).
Proof.
  intros Hnone Hsnappy.
  destruct (compression_of_cases compression)
    as [[? _]|[[? _]|(_ & _ & Hc)]]; [done.. |].
  split; [done |].
  assert (Hsetup : exists e,
    setup_write_args table path index compression statistics
      metadata_file_path = Raise e /\
    (is_Ok (view_and_names table index) = true ->
     is_Ok (generate_pandas_metadata table index) = true ->
     e = ValueError compression_msg)).
  { unfold setup_write_args.
    destruct (view_and_names table index) as [[tv names]|e]; simpl.
    2: { exists e. split; [done | discriminate]. }
    destruct (generate_pandas_metadata table index) as [md|e]; simpl.
    2: { exists e. split; [done | discriminate]. }
    rewrite Hc; simpl. eauto. }
  destruct Hsetup as (e & Hsetup & He).
  split.
  - exists e. by apply write_parquet_setup_Raise.
  - intros H1 H2. rewrite <- (He H1 H2). by apply write_parquet_setup_Raise.
Qed.

(** C6 (amended): the statistics option, a string, is put in upper case and
    compared with ["NONE"], ["ROWGROUP"] and ["PAGE"]: a value whose upper
    case is one of the three selects that level, two values with the same
    upper case are treated alike, and the level handed to the encoder is the
    one so selected.  With any other value the write fails and the sink is as
    it was before the call, and the error is the [ValueError] of an
    unsupported option (that of the statistics check when the compression
    option is supported) whenever the steps that come before the option
    checks have not failed already. *)
Theorem statistics_matched_in_upper_case (table : Table) (path : string)
    (index : index_policy) (compression : option string) (statistics : string)
    (metadata_file_path : option string) (w : World) :
  (str_upper statistics = "NONE" ->
   statistics_of statistics = Ok STATISTICS_NONE) /\
  (str_upper statistics = "ROWGROUP" ->
   statistics_of statistics = Ok STATISTICS_ROWGROUP) /\
  (str_upper statistics = "PAGE" ->
   statistics_of statistics = Ok STATISTICS_PAGE) /\
  (forall s, str_upper s = str_upper statistics ->
             statistics_of s = statistics_of statistics) /\
  (forall args,
     setup_write_args table path index compression statistics
       metadata_file_path = Ok args ->
     statistics_of statistics = Ok (wa_stats_level args)) /\
  (str_upper statistics <> "NONE" ->
   str_upper statistics <> "ROWGROUP" ->
   str_upper statistics <> "PAGE" ->
   statistics_of statistics = Raise (ValueError statistics_msg) /\
   exists e,
     write_parquet table path index compression statistics
       metadata_file_path w = (Raise e, w) /\
     (is_Ok (view_and_names table index) = true ->
      is_Ok (generate_pandas_metadata table index) = true ->
      e = ValueError compression_msg \/ e = ValueError statistics_msg) /\
     (is_Ok (view_and_names table index) = true ->
      is_Ok (generate_pandas_metadata table index) = true ->
      is_Ok (compression_of compression) = true ->
      e = ValueError statistics_msg)).
Proof.
  split; [| split; [| split; [| split; [| split]]]].
  - intros Hu. destruct (statistics_of_cases statistics)
      as [[_ ?]|[[? _]|[[? _]|(? & _)]]]; congruence.
  - intros Hu. destruct (statistics_of_cases statistics)
      as [[? _]|[[_ ?]|[[? _]|(_ & ? & _)]]]; congruence.
  - intros Hu. destruct (statistics_of_cases statistics)
      as [[? _]|[[? _]|[[_ ?]|(_ & _ & ? & _)]]]; congruence.
  - intros s Hs'. unfold statistics_of. by rewrite Hs'.
  - intros args Hargs.
    destruct (setup_write_args_Ok _ _ _ _ _ _ _ Hargs)
      as (tv & names & md & comp & stat & _ & _ & _ & Hstat & _ & _ & _ & _
          & Hlevel & _).
    by rewrite Hlevel.
  - intros H1 H2 H3.
    destruct (statistics_of_cases statistics)
      as [[? _]|[[? _]|[[? _]|(_ & _ & _ & Hs)]]]; [done.. |].
    split; [done |].
    assert (Hsetup : exists e,
      setup_write_args table path index compression statistics
        metadata_file_path = Raise e /\
      (is_Ok (view_and_names table index) = true ->
       is_Ok (generate_pandas_metadata table index) = true ->
       e = ValueError compression_msg \/ e = ValueError statistics_msg) /\
      (is_Ok (view_and_names table index) = true ->
       is_Ok (generate_pandas_metadata table index) = true ->
       is_Ok (compression_of compression) = true ->
       e = ValueError statistics_msg)).
    { unfold setup_write_args.
      destruct (view_and_names table index) as [[tv names]|e]; simpl.
      2: { exists e. repeat split; [done | discriminate..]. }
      destruct (generate_pandas_metadata table index) as [md|e]; simpl.
      2: { exists e. repeat split; [done | discriminate..]. }
      destruct (compression_of_cases compression)
        as [[_ ->]|[[_ ->]|(_ & _ & ->)]]; simpl; rewrite ?Hs; simpl.
      - exists (ValueError statistics_msg). auto.
      - exists (ValueError statistics_msg). auto.
      - exists (ValueError compression_msg). repeat split; auto. discriminate. }
    destruct Hsetup as (e & Hsetup & He).
    exists e. split; [by apply write_parquet_setup_Raise | done].
Qed.

(** C8: a write that returns hands back a footer blob if and only if a
    footer path was given: with a path, the encoder is asked for the footer
    ([return_filemetadata] set, the path passed on) and what it returns is
    returned to the caller; without one, the encoder is not asked and the
    write returns [None]. *)
Theorem footer_blob_iff_footer_path (table : Table) (path : string)
    (index : index_policy) (compression : option string) (statistics : string)
    (metadata_file_path : option string) (w w' : World) (r : option Blob) :
  write_parquet table path index compression statistics metadata_file_path w
  = (Ok r, w') ->
  (is_Some r <-> is_Some metadata_file_path) /\
  exists args blob,
    setup_write_args table path index compression statistics
      metadata_file_path = Ok args /\
    parquet_writer args w = (Ok blob, w') /\
    match metadata_file_path with
    | Some p =>
        wa_return_filemetadata args = true /\
        wa_metadata_out_file_path args = p /\ r = Some blob
    | None => wa_return_filemetadata args = false /\ r = None
    end.
Proof.
  unfold write_parquet.
  destruct (setup_write_args _ _ _ _ _ _) as [args|] eqn:Hargs; [| done].
  destruct (parquet_writer args w) as [[blob|] w1] eqn:Hw; [| done].
  apply setup_write_args_Ok in Hargs
    as (tv & names & md & comp & stat & _ & _ & _ & _ & _ & _ & _ & _ & _
        & Hret & Hpath).
  destruct metadata_file_path as [p|]; intros [= <- <-].
  - split; [split; eauto |]. exists args, blob. repeat split; done.
  - split; [split; intros [? [=]] |]. exists args, blob. repeat split; done.
Qed.

End WriteFailures.

(** ** The reader arguments *)

(** C7: unset selection options take their sentinel defaults in the reader
    arguments: an unset [skip_rows] is 0, an unset [num_rows] is -1, an unset
    [row_group] and an unset [row_group_count] are -1 each; the arguments are
    always built when the four are unset, and otherwise fail to be built only
    when another option does not fit [size_type]. *)
Theorem unset_read_options_default (src : source_info)
    (columns : option (list string)) (stc upm : bool) :
  (forall rg rgc num,
     match setup_read_args src columns rg rgc None num stc upm with
     | Ok args => ra_skip_rows args = 0
     | Raise e => e = OverflowError
     end) /\
  (forall rg rgc skip,
     match setup_read_args src columns rg rgc skip None stc upm with
     | Ok args => ra_num_rows args = -1
     | Raise e => e = OverflowError
     end) /\
  (forall rgc skip num,
     match setup_read_args src columns None rgc skip num stc upm with
     | Ok args => ra_row_group args = -1
     | Raise e => e = OverflowError
     end) /\
  (forall rg skip num,
     match setup_read_args src columns rg None skip num stc upm with
     | Ok args => ra_row_group_count args = -1
     | Raise e => e = OverflowError
     end) /\
  exists args,
    setup_read_args src columns None None None None stc upm = Ok args /\
    ra_skip_rows args = 0 /\ ra_num_rows args = -1 /\
    ra_row_group args = -1 /\ ra_row_group_count args = -1.
Proof.
  unfold setup_read_args, to_size_type.
  split; [| split; [| split; [| split]]].
  5: { eexists. split; [reflexivity |]. done. }
  all: intros a b c; destruct a as [a|], b as [b|], c as [c|]; simpl.
  all: repeat (match goal with
               | |- context [in_size_type ?z] => destruct (in_size_type z) eqn:?
               end; simpl; try done).
  all: done.
Qed.

(** ** Ordered dictionaries *)

Lemma odict_get_set {V} (d : list (string * V)) (k k' : string) (v : V) :
  odict_get (odict_set d k v) k'
  = if bool_decide (k = k') then Some v else odict_get d k'.
Proof.
  induction d as [|[k0 v0] d IH]; simpl.
  - done.
  - destruct (bool_decide (k0 = k)) eqn:Hk0; simpl.
    + apply bool_decide_eq_true_1 in Hk0 as ->.
      destruct (bool_decide (k = k')); done.
    + rewrite IH. apply bool_decide_eq_false_1 in Hk0.
      repeat case_bool_decide; congruence.
Qed.

Lemma odict_get_Some_key {V} (d : list (string * V)) (k : string) (v : V) :
  odict_get d k = Some v -> k ∈ d.*1.
Proof.
  induction d as [|[k0 v0] d IH]; simpl; [done |].
  case_bool_decide as Hk.
  - intros _. subst. apply elem_of_cons. by left.
  - intros H. apply elem_of_cons. right. by apply IH.
Qed.

Lemma odict_of_pairs_keys {V} (l : list (string * V)) (k : string) (v : V) :
  odict_get (odict_of_pairs l) k = Some v -> k ∈ l.*1.
Proof.
  unfold odict_of_pairs.
  assert (H : forall acc : list (string * V),
            odict_get (fold_left (fun d '(k, v) => odict_set d k v) l acc) k
              = Some v ->
            k ∈ l.*1 \/ is_Some (odict_get acc k)).
  { induction l as [|[k0 v0] l IH]; intros acc; simpl.
    - intros ->. right. eauto.
    - intros Hget. destruct (IH _ Hget) as [Hin|Hacc].
      + left. apply elem_of_cons. by right.
      + rewrite odict_get_set in Hacc. case_bool_decide as Hk.
        * left. apply elem_of_cons. by left.
        * by right. }
  intros Hget. destruct (H [] Hget) as [|[? [=]]]; done.
Qed.

Lemma odict_set_fresh {V} (d : list (string * V)) (k : string) (v : V) :
  k ∉ d.*1 -> odict_set d k v = d ++ [(k, v)].
Proof.
  induction d as [|[k0 v0] d IH]; simpl; [done |].
  intros Hk. apply not_elem_of_cons in Hk as [Hne Hk].
  rewrite bool_decide_eq_false_2 by done. by rewrite IH.
Qed.

Lemma odict_of_pairs_NoDup {V} (l : list (string * V)) :
  NoDup (l.*1) -> odict_of_pairs l = l.
Proof.
  unfold odict_of_pairs.
  assert (H : forall acc : list (string * V),
            NoDup ((acc ++ l).*1) ->
            fold_left (fun d '(k, v) => odict_set d k v) l acc = acc ++ l).
  { induction l as [|[k v] l IH]; intros acc Hnd; simpl.
    - by rewrite app_nil_r.
    - rewrite odict_set_fresh.
      + rewrite IH; rewrite <- app_assoc; done.
      + rewrite fmap_app in Hnd. apply NoDup_app in Hnd as (_ & Hdisj & _).
        intros Hin. apply (Hdisj _ Hin). simpl. apply elem_of_cons. by left. }
  intros Hnd. by apply (H []).
Qed.

(** ** The index on the read path *)

Section ReadIndex.
Context {World Blob : Type} `{!libcudf_io World Blob} `{!pyarrow_compat}.

(** C2 (amended): when the embedded pandas JSON has a non-empty
    [index_columns] list, the reader takes its first entry as the index only
    if it is a non-empty string.  If that string is the name of a decoded
    column, the column is removed from the data columns and becomes the index
    (an index name that pandas generated is dropped); if it is a string that
    names no decoded column, the table keeps its default index, which is
    labelled with the string if and only if [use_pandas_metadata] is set; and
    if the entry is not a string (a range descriptor, say) or is the empty
    string, the table keeps its default, unnamed index and all its columns,
    whatever [use_pandas_metadata] is. *)
Theorem index_from_pandas_metadata (src : source_info)
    (columns : option (list string))
    (row_group row_group_count skip_rows num_rows : option Z)
    (strings_to_categorical use_pandas_metadata : bool) (w : World)
    (args : read_parquet_args) (out : table_with_metadata)
    (meta : list (string * json)) (entry : json) (others : list json) :
  setup_read_args src columns row_group row_group_count skip_rows num_rows
    strings_to_categorical use_pandas_metadata = Ok args ->
  parquet_reader args w = Ok out ->
  user_data_at (user_data (metadata out)) "pandas" = JsonText (JDict meta) ->
  odict_get meta "index_columns" = Some (JList (entry :: others)) ->
  let names := column_names (metadata out) in
  let data := from_unique_ptr (tbl out) names in
  let rows := num_rows_of data in
  let df := read_parquet src columns row_group row_group_count skip_rows
              num_rows strings_to_categorical use_pandas_metadata w in
  (forall s col,
     entry = JStr s -> s <> "" -> odict_get data s = Some col ->
     df = Ok (mk_Table
                (GenericIndex (_backwards_compatible_index_name s s) col)
                (odict_del data s))) /\
  (forall s,
     entry = JStr s -> s <> "" -> s ∉ names ->
     df = Ok (mk_Table
                (RangeIndex (if use_pandas_metadata then Some s else None)
                   0 rows)
                data)) /\
  ((forall s, entry = JStr s -> s = "") ->
   df = Ok (mk_Table (RangeIndex None 0 rows) data)).
Proof.
  intros Hargs Hread Hjson Hkey names data rows df.
  assert (Hdf : df = set_index_column (_from_table data) entry names
                       use_pandas_metadata).
  { subst df. unfold read_parquet. rewrite Hargs; simpl.
    rewrite Hread; simpl. rewrite Hjson.
    unfold find_index_col, py_contains.
    rewrite bool_decide_eq_true_2 by (by eapply odict_get_Some_key).
    simpl. rewrite Hkey. simpl. done. }
  rewrite Hdf. clear Hdf. unfold set_index_column, _from_table.
  split; [| split].
  - intros s col -> Hs Hcol.
    rewrite bool_decide_eq_true_2 by done.
    rewrite bool_decide_eq_true_2.
    2: { apply odict_of_pairs_keys in Hcol.
         apply list_elem_of_fmap in Hcol as ([k c] & -> & Hin).
         by apply elem_of_zip_l in Hin. }
    unfold set_index. simpl. fold data. rewrite Hcol. simpl. done.
  - intros s -> Hs Hnot.
    rewrite bool_decide_eq_true_2 by done.
    rewrite bool_decide_eq_false_2 by done.
    destruct use_pandas_metadata; done.
  - intros Hentry. destruct entry; try done.
    rewrite bool_decide_eq_false_2; [done |].
    intros Hne. apply Hne. by apply Hentry.
Qed.

End ReadIndex.

(** ** Writing a table and reading it back *)

Lemma generate_pandas_metadata_no_index (table : Table) (index : index_policy) :
  Forall (fun c => dtype c <> CATEGORY) (data_columns table) ->
  index = IndexFalse
    \/ (isinstance_MultiIndex (_index table) = false
        /\ index_name (_index table) = None) ->
  exists cols,
    generate_pandas_metadata table index
    = Ok (JDict [("index_columns", JList []); ("columns", cols)]).
Proof.
  intros Hdata Hidx. unfold generate_pandas_metadata.
  rewrite md_columns_Ok by done. simpl.
  destruct (is_not_False index) eqn:Hpol.
  - destruct Hidx as [->|[Hmulti Hname]]; [done |].
    destruct (_index table) as [n ? ?|n ?|?]; simpl in *; try done.
    all: subst n; simpl; unfold construct_metadata; rewrite Hpol; eauto.
  - simpl. unfold construct_metadata. rewrite Hpol. eauto.
Qed.

Lemma generate_pandas_metadata_named_index (table : Table)
    (index : index_policy) (name : string) (col : Column) :
  Forall (fun c => dtype c <> CATEGORY) (data_columns table) ->
  index <> IndexFalse ->
  _index table = GenericIndex (Some name) col ->
  dtype col <> CATEGORY ->
  exists cols,
    generate_pandas_metadata table index
    = Ok (JDict [("index_columns", JList [JStr name]); ("columns", cols)]).
Proof.
  intros Hdata Hpol Hidx Hcol. unfold generate_pandas_metadata.
  rewrite md_columns_Ok by done. simpl.
  replace (is_not_False index) with true by (by destruct index).
  rewrite Hidx. simpl. rewrite Hidx. simpl.
  unfold is_categorical_index. simpl.
  rewrite bool_decide_eq_false_2 by done. simpl.
  unfold construct_metadata.
  replace (is_not_False index) with true by (by destruct index).
  eauto.
Qed.

Lemma slice_column_whole (c : Column) :
  slice_column 0 (column_size c) c = c.
Proof.
  unfold slice_column, column_size. destruct c as [t cs]; simpl. f_equal.
  rewrite Z.sub_0_r, Nat2Z.id. by rewrite take_ge.
Qed.

Lemma row_window_all (rows : Z) :
  0 <= rows -> row_window 0 (rows + 0) 0 (-1) = Ok (0, rows).
Proof.
  intros Hrows. unfold row_window; simpl.
  replace (rows + 0 - 0 <? 0) with false by (symmetry; apply Z.ltb_ge; lia).
  simpl. f_equal. f_equal. lia.
Qed.

Lemma view_num_rows_nonneg (tv : table_view) : 0 <= view_num_rows tv.
Proof. destruct tv; simpl; unfold column_size; lia. Qed.

(** Reading a whole file of one row group back, with no selection. *)
Lemma ref_reader_whole_file (w : gmap string ParquetFile) (path : string)
    (file : ParquetFile) (upm : bool) :
  w !! path = Some file ->
  pf_row_group_rows file = [view_num_rows (pf_columns file)] ->
  aligned (pf_columns file) ->
  length (pf_names file) = length (pf_columns file) ->
  ref_parquet_reader
    (mk_read_parquet_args (mk_source_info path) [] false upm 0 (-1) (-1) (-1)
       (mk_data_type EMPTY)) w
  = Ok (mk_table_with_metadata (pf_columns file)
          (mk_table_metadata (pf_names file) (pf_user_data file))).
Proof.
  intros Hfile Hgroups Haligned Hlen.
  unfold ref_parquet_reader; simpl. rewrite Hfile, Hgroups.
  unfold row_group_range; simpl.
  rewrite row_window_all by apply view_num_rows_nonneg. simpl.
  rewrite fst_zip, snd_zip by lia. f_equal. f_equal.
  rewrite <- (list_fmap_id (pf_columns file)) at 2.
  apply Forall_fmap_ext. eapply Forall_impl; [exact Haligned |].
  intros c Hc. simpl in Hc. rewrite <- Hc. apply slice_column_whole.
Qed.


Section RoundTrip.
Context `{!pyarrow_compat}.

Lemma write_parquet_ref (table : Table) (path : string) (index : index_policy)
    (compression : option string) (statistics : string)
    (metadata_file_path : option string) (w : gmap string ParquetFile)
    tv names md comp stat :
  view_and_names table index = Ok (tv, names) ->
  generate_pandas_metadata table index = Ok md ->
  compression_of compression = Ok comp ->
  statistics_of statistics = Ok stat ->
  exists r,
    write_parquet table path index compression statistics
      metadata_file_path w
    = (Ok r,
       <[path := mk_ParquetFile names tv [view_num_rows tv]
                   (<["pandas" := JsonText md]> ∅) comp]> w).
Proof.
  intros Hvn Hmd Hcomp Hstat.
  unfold write_parquet, setup_write_args.
  rewrite Hvn; simpl. rewrite Hmd; simpl. rewrite Hcomp; simpl.
  rewrite Hstat; simpl.
  destruct metadata_file_path; simpl; eauto.
Qed.

Lemma read_parquet_ref (w : gmap string ParquetFile) (path : string)
    (file : ParquetFile) (upm : bool) :
  w !! path = Some file ->
  pf_row_group_rows file = [view_num_rows (pf_columns file)] ->
  aligned (pf_columns file) ->
  length (pf_names file) = length (pf_columns file) ->
  read_parquet (mk_source_info path) None None None None None false upm w
  = (index_col ← find_index_col (user_data_at (pf_user_data file) "pandas");
     set_index_column
       (_from_table (from_unique_ptr (pf_columns file) (pf_names file)))
       index_col (pf_names file) upm).
Proof.
  intros Hfile Hgroups Haligned Hlen. unfold read_parquet.
  change (setup_read_args (mk_source_info path) None None None None None
            false upm)
    with (Ok (mk_read_parquet_args (mk_source_info path) [] false upm
                0 (-1) (-1) (-1) (mk_data_type EMPTY))).
  rewrite bind_Ok.
  change (parquet_reader ?a ?b) with (ref_parquet_reader a b).
  rewrite (ref_reader_whole_file w path file upm) by done.
  rewrite bind_Ok. done.
Qed.

(** C1 (amended): for every table whose data columns have distinct names,
    none of them CATEGORY-typed, written with supported options and read back
    whole.  When no index is embedded (the policy is [False], or the index is
    a single unnamed level) and the data columns have the same number of
    rows, the write succeeds and the table read has exactly the data columns
    of the table written (names, types, row count, cell values and null
    positions) under the default range index.  When the policy is not
    [False] and the index is a single materialised level, not CATEGORY-typed,
    with as many rows as the data columns and a non-empty name that is not a
    column name, the write succeeds and the table read has the data columns
    of the table written and its index column as index, under the name
    [_backwards_compatible_index_name] returns for it. *)
Theorem write_then_read (table : Table) (path : string) (index : index_policy)
    (compression : option string) (statistics : string)
    (metadata_file_path : option string) (use_pandas_metadata : bool)
    (w : gmap string ParquetFile) :
  NoDup (_column_names table) ->
  Forall (fun c => dtype c <> CATEGORY) (data_columns table) ->
  is_Ok (compression_of compression) = true ->
  is_Ok (statistics_of statistics) = true ->
  let written :=
    write_parquet table path index compression statistics
      metadata_file_path w in
  let df :=
    read_parquet (mk_source_info path) None None None None None false
      use_pandas_metadata written.2 in
  (index = IndexFalse
     \/ (isinstance_MultiIndex (_index table) = false
         /\ index_name (_index table) = None) ->
   aligned (data_columns table) ->
   is_Ok written.1 = true /\
   df = Ok (mk_Table (RangeIndex None 0 (num_rows_of (_data table)))
              (_data table))) /\
  (forall name col,
     index <> IndexFalse ->
     _index table = GenericIndex (Some name) col ->
     name <> "" ->
     name ∉ _column_names table ->
     dtype col <> CATEGORY ->
     aligned (col :: data_columns table) ->
     is_Ok written.1 = true /\
     df = Ok (mk_Table
                (GenericIndex (_backwards_compatible_index_name name name) col)
                (_data table))).
Proof.
  intros Hnd Hdata Hcomp Hstat written df.
  destruct (compression_of compression) as [comp|] eqn:Ecomp; [| done].
  destruct (statistics_of statistics) as [stat|] eqn:Estat; [| done].
  split.
  - intros Hidx Haligned.
    assert (Hvn : view_and_names table index
                  = Ok (data_view table, _column_names table)).
    { rewrite view_and_names_unfold.
      destruct Hidx as [->|[-> ->]]; [done |]. by destruct index. }
    destruct (generate_pandas_metadata_no_index table index Hdata Hidx)
      as [cols Hmd].
    destruct (write_parquet_ref table path index compression statistics
                metadata_file_path w _ _ _ _ _ Hvn Hmd Ecomp Estat)
      as [r Hw].
    subst df written. rewrite Hw. simpl. split; [done |].
    erewrite read_parquet_ref;
      [| apply lookup_insert_eq | done | exact Haligned
       | simpl; unfold data_view, _column_names, data_columns;
         by rewrite !length_fmap].
    simpl. unfold user_data_at. rewrite lookup_insert_eq. simpl.
    unfold from_unique_ptr, data_view, _column_names, data_columns.
    rewrite zip_fst_snd, odict_of_pairs_NoDup by done. done.
  - intros name col Hpol Hidx Hname Hfresh Hcol Haligned.
    assert (Hvn : view_and_names table index
                  = Ok (col :: data_columns table,
                        name :: _column_names table)).
    { rewrite view_and_names_unfold.
      replace (is_not_False index) with true by (by destruct index).
      unfold view. rewrite Hidx. done. }
    destruct (generate_pandas_metadata_named_index table index name col
                Hdata Hpol Hidx Hcol) as [cols Hmd].
    destruct (write_parquet_ref table path index compression statistics
                metadata_file_path w _ _ _ _ _ Hvn Hmd Ecomp Estat)
      as [r Hw].
    subst df written. rewrite Hw. simpl. split; [done |].
    erewrite read_parquet_ref;
      [| apply lookup_insert_eq | done | exact Haligned
       | simpl; unfold _column_names, data_columns;
         by rewrite !length_fmap].
    simpl. unfold user_data_at. rewrite lookup_insert_eq. simpl.
    rewrite bool_decide_eq_true_2 by done.
    rewrite bool_decide_eq_true_2 by (apply elem_of_cons; by left).
    unfold from_unique_ptr.
    change (zip (name :: _column_names table) (col :: data_columns table))
      with ((name, col) :: zip (_column_names table) (data_columns table)).
    unfold _column_names, data_columns. rewrite zip_fst_snd.
    rewrite odict_of_pairs_NoDup.
    2: { simpl. apply NoDup_cons. done. }
    unfold set_index, _from_table. simpl.
    rewrite bool_decide_eq_true_2 by done. simpl. done.
Qed.

End RoundTrip.

(** * Instances of the properties, and inputs on which the claims fail *)

(** C1 fails as stated: a table with a two-level index and no CATEGORY column
    is written with both levels embedded, and comes back with the first level
    as its only index column and the second among its data columns. *)
Lemma multi_index_is_not_restored :
  let written :=
    write_parquet table_multi_index "t.parquet" IndexNone None "ROWGROUP" None
      no_files in
  Forall (fun c => dtype c <> CATEGORY) (view table_multi_index) /\
  is_Ok written.1 = true /\
  exists df,
    read_parquet (mk_source_info "t.parquet") None None None None None false
      true written.2 = Ok df /\
    _column_names df = ["b"; "x"] /\
    _column_names table_multi_index = ["x"] /\
    index_columns (_index df) = [col_a] /\
    index_columns (_index table_multi_index) = [col_a; col_b].
Proof.
  split; [repeat constructor; discriminate |].
  split; [reflexivity |].
  eexists. split; [vm_compute; reflexivity |]. repeat split.
Qed.

Lemma write_then_read_witness :
  read_parquet (mk_source_info "t.parquet") None None None None None false true
    (write_parquet table_named_index "t.parquet" IndexNone None "ROWGROUP"
       None no_files).2
  = Ok table_named_index.
Proof.
  refine (proj2 (proj2 (write_then_read table_named_index "t.parquet" IndexNone
                          None "ROWGROUP" None true no_files _ _ _ _)
                   "a" col_a _ _ _ _ _ _)).
  - apply NoDup_singleton.
  - repeat constructor; discriminate.
  - reflexivity.
  - reflexivity.
  - discriminate.
  - reflexivity.
  - discriminate.
  - apply not_elem_of_cons. split; [discriminate | apply not_elem_of_nil].
  - discriminate.
  - repeat constructor.
Defined.

(** Outside the two cases of the round trip the index is not restored: a
    named range index comes back as a data column, under the default index;
    so does an index named by the empty string; and an index named as a data
    column takes the place of that column. *)
Lemma index_outside_the_round_trip_cases :
  let round_trip t :=
    read_parquet (mk_source_info "t.parquet") None None None None None false
      true
      (write_parquet t "t.parquet" IndexNone None "ROWGROUP" None no_files).2
  in
  round_trip table_named_range
  = Ok (mk_Table (RangeIndex None 0 3)
          [("r", mk_Column INT64 [Some (SInt 0); Some (SInt 1); Some (SInt 2)]);
           ("x", col_x)]) /\
  round_trip table_empty_index_name
  = Ok (mk_Table (RangeIndex None 0 3) [("", col_a); ("x", col_x)]) /\
  round_trip table_index_named_as_column
  = Ok (mk_Table (GenericIndex (Some "x") col_x) []).
Proof. repeat split; vm_compute; reflexivity. Qed.

(** C2 fails as stated: the first entry of [index_columns] is a range
    descriptor named ["idx"] and [use_pandas_metadata] is set, yet the index
    of the table read carries no name. *)
Lemma range_descriptor_gives_no_label :
  exists df,
    read_parquet (mk_source_info "r.parquet") None None None None None false
      true ({["r.parquet" := file_with_range_index]} : gmap string ParquetFile)
    = Ok df /\
    index_name (_index df) = None /\
    index_name (_index df) <> Some "idx".
Proof.
  eexists. split; [vm_compute; reflexivity |]. split; [reflexivity | discriminate].
Qed.

Lemma index_from_pandas_metadata_witness :
  read_parquet (mk_source_info "n.parquet") None None None None None false
    true ({["n.parquet" := file_with_named_index]} : gmap string ParquetFile)
  = Ok table_named_index.
Proof.
  refine (proj1 (index_from_pandas_metadata (mk_source_info "n.parquet") None
                   None None None None false true
                   ({["n.parquet" := file_with_named_index]}
                      : gmap string ParquetFile)
                   (mk_read_parquet_args (mk_source_info "n.parquet") [] false
                      true 0 (-1) (-1) (-1) (mk_data_type EMPTY))
                   (mk_table_with_metadata [col_a; col_x]
                      (mk_table_metadata ["a"; "x"]
                         (pf_user_data file_with_named_index)))
                   [("index_columns", JList [JStr "a"])] (JStr "a") []
                   _ _ _ _)
            "a" col_a _ _ _).
  - reflexivity.
  - vm_compute. reflexivity.
  - vm_compute. reflexivity.
  - reflexivity.
  - reflexivity.
  - discriminate.
  - reflexivity.
Defined.

Lemma embedded_index_names_match_view_witness :
  match setup_write_args table_named_index "t.parquet" IndexNone None
          "ROWGROUP" None with
  | Ok args =>
      column_names (wa_metadata args) = ["a"] ++ ["x"] /\
      wa_table args = [col_a] ++ [col_x]
  | Raise _ => False
  end.
Proof.
  assert (Hpol : IndexNone <> IndexFalse) by discriminate.
  assert (Hemb : isinstance_MultiIndex (_index table_named_index) = true
                 \/ index_name (_index table_named_index) <> None)
    by (right; discriminate).
  destruct (setup_write_args table_named_index "t.parquet" IndexNone None
              "ROWGROUP" None) as [args|e] eqn:Hargs.
  - destruct (embedded_index_names_match_view table_named_index "t.parquet"
                IndexNone None "ROWGROUP" None args Hpol Hemb Hargs)
      as (l & Hl & _ & Hnames & Hview & _).
    destruct l as [|a [|? ?]]; try discriminate Hl.
    injection Hl as <-. split; [exact Hnames | exact Hview].
  - vm_compute in Hargs. discriminate.
Defined.

Lemma unnamed_index_falls_back_witness :
  view_and_names table_unnamed_index IndexNone = Ok ([col_x], ["x"]).
Proof.
  assert (Hpol : IndexNone <> IndexFalse) by discriminate.
  assert (Hmulti : isinstance_MultiIndex (_index table_unnamed_index) = false)
    by reflexivity.
  assert (Hname : index_name (_index table_unnamed_index) = None)
    by reflexivity.
  exact (proj1 (unnamed_index_falls_back_to_data_columns table_unnamed_index
                  IndexNone Hpol Hmulti Hname)).
Defined.

(** C4 fails as stated: a table with a CATEGORY-typed index is accepted when
    that index is not embedded, be it because the index policy is [False] or
    because the index has no name; the encoder is called, on the data columns
    alone, and the file is written.  And when a [MultiIndex] with an unnamed
    level is embedded, the write fails on the name of that level, with a
    [TypeError], before the category check, be the CATEGORY-typed column
    another level of the index or a data column. *)
Lemma category_index_left_out_is_accepted :
  let file :=
    mk_ParquetFile ["x"] [col_x] [3]
      (<["pandas" :=
           JsonText
             (JDict [("index_columns", JList []);
                     ("columns",
                      JList [JDict [("name", JStr "x");
                                    ("field_name", JStr "x");
                                    ("pandas_type", JStr "int32")]])])]> ∅)
      NONE in
  (index_dtype (_index table_category_index) = CATEGORY /\
   write_parquet table_category_index "t.parquet" IndexFalse None "ROWGROUP"
     None no_files
   = (Ok None, {["t.parquet" := file]})) /\
  (index_dtype (_index table_unnamed_category_index) = CATEGORY /\
   write_parquet table_unnamed_category_index "t.parquet" IndexNone None
     "ROWGROUP" None no_files
   = (Ok None, {["t.parquet" := file]})) /\
  (category_level_checked (_index table_unnamed_level) /\
   write_parquet table_unnamed_level "t.parquet" IndexNone None "ROWGROUP"
     None no_files
   = (Raise TypeError, no_files)) /\
  (Exists (fun c => dtype c = CATEGORY)
     (data_columns table_category_unnamed_level) /\
   write_parquet table_category_unnamed_level "t.parquet" IndexNone None
     "ROWGROUP" None no_files
   = (Raise TypeError, no_files)).
Proof.
  split; [split; [reflexivity | vm_compute; reflexivity] |].
  split; [split; [reflexivity | vm_compute; reflexivity] |].
  split; [split; [| vm_compute; reflexivity] |].
  - exists "c", (GenericIndex (Some "c") col_cat).
    split; [| split; reflexivity].
    apply elem_of_cons. right. apply elem_of_cons. by left.
  - split; [| vm_compute; reflexivity].
    apply Exists_cons. right. apply Exists_cons. by left.
Qed.

(** A CATEGORY-typed data column next to two levels of the same name. *)
Lemma category_write_fails_witness :
  write_parquet table_repeated_level "t.parquet" IndexNone None "ROWGROUP"
    None no_files
  = (Raise (ValueError category_msg), no_files).
Proof.
  apply (category_write_fails table_repeated_level "t.parquet" IndexNone None
           "ROWGROUP" None no_files).
  - intros _. simpl. repeat constructor; by eexists.
  - left. right. left. reflexivity.
Defined.

(** C5 fails as stated: with a CATEGORY column in the table, an unsupported
    compression value is never looked at and the error is that of the
    category check; with an unnamed level in an embedded [MultiIndex], the
    error is the [TypeError] of the name encoding. *)
Lemma category_error_comes_before_compression :
  (write_parquet table_category "t.parquet" IndexNone (Some "gzip") "ROWGROUP"
     None no_files
   = (Raise (ValueError category_msg), no_files) /\
   ValueError category_msg <> ValueError compression_msg) /\
  write_parquet table_unnamed_level "t.parquet" IndexNone (Some "gzip")
    "ROWGROUP" None no_files
  = (Raise TypeError, no_files).
Proof.
  split; [split; [vm_compute; reflexivity | discriminate] |].
  vm_compute. reflexivity.
Qed.

Lemma unsupported_compression_fails_witness :
  write_parquet table_named_index "t.parquet" IndexNone (Some "gzip")
    "ROWGROUP" None no_files
  = (Raise (ValueError compression_msg), no_files).
Proof.
  apply (unsupported_compression_fails table_named_index "t.parquet" IndexNone
           (Some "gzip") "ROWGROUP" None no_files);
    [discriminate | discriminate | vm_compute; reflexivity
     | vm_compute; reflexivity].
Defined.

(** C6 fails as stated: with a CATEGORY column in the table, an unsupported
    statistics value is never looked at and the error is that of the category
    check, which is not an unsupported-option error; with an unnamed level in
    an embedded [MultiIndex], the error is the [TypeError] of the name
    encoding. *)
Lemma category_error_comes_before_statistics :
  (write_parquet table_category "t.parquet" IndexNone None "COLUMN" None
     no_files
   = (Raise (ValueError category_msg), no_files) /\
   ValueError category_msg <> ValueError statistics_msg /\
   ValueError category_msg <> ValueError compression_msg) /\
  write_parquet table_unnamed_level "t.parquet" IndexNone None "COLUMN" None
    no_files
  = (Raise TypeError, no_files).
Proof.
  split; [split; [vm_compute; reflexivity | split; discriminate] |].
  vm_compute. reflexivity.
Qed.

Lemma statistics_matched_in_upper_case_witness :
  statistics_of "none" = Ok STATISTICS_NONE /\
  statistics_of "RowGroup" = Ok STATISTICS_ROWGROUP /\
  statistics_of "page" = Ok STATISTICS_PAGE /\
  statistics_of "Column" = Raise (ValueError statistics_msg) /\
  statistics_of "column" = statistics_of "Column".
Proof.
  assert (Hnone : str_upper "none" = "NONE") by reflexivity.
  assert (Hrow : str_upper "RowGroup" = "ROWGROUP") by reflexivity.
  assert (Hpage : str_upper "page" = "PAGE") by reflexivity.
  assert (Hn : str_upper "Column" <> "NONE") by discriminate.
  assert (Hr : str_upper "Column" <> "ROWGROUP") by discriminate.
  assert (Hp : str_upper "Column" <> "PAGE") by discriminate.
  assert (Hc : str_upper "column" = str_upper "Column") by reflexivity.
  destruct (statistics_matched_in_upper_case table_named_index "t.parquet"
              IndexNone None "none" None no_files) as (H1 & _).
  destruct (statistics_matched_in_upper_case table_named_index "t.parquet"
              IndexNone None "RowGroup" None no_files) as (_ & H2 & _).
  destruct (statistics_matched_in_upper_case table_named_index "t.parquet"
              IndexNone None "page" None no_files) as (_ & _ & H3 & _).
  destruct (statistics_matched_in_upper_case table_named_index "t.parquet"
              IndexNone None "Column" None no_files)
    as (_ & _ & _ & H4 & _ & H5).
  split; [exact (H1 Hnone) |]. split; [exact (H2 Hrow) |].
  split; [exact (H3 Hpage) |].
  split; [exact (proj1 (H5 Hn Hr Hp)) | exact (H4 "column" Hc)].
Defined.

Lemma footer_blob_iff_footer_path_witness :
  exists r,
    (write_parquet table_unnamed_index "t.parquet" IndexFalse None "ROWGROUP"
       (Some "meta") no_files).1 = Ok r /\
    (is_Some r <-> is_Some (Some "meta")).
Proof.
  assert (Hw : write_parquet table_unnamed_index "t.parquet" IndexFalse None
                 "ROWGROUP" (Some "meta") no_files
               = (Ok (Some (footer_of "meta" 3)),
                  (write_parquet table_unnamed_index "t.parquet" IndexFalse
                     None "ROWGROUP" (Some "meta") no_files).2))
    by (vm_compute; reflexivity).
  exists (Some (footer_of "meta" 3)). split.
  - rewrite Hw. reflexivity.
  - exact (proj1 (footer_blob_iff_footer_path table_unnamed_index "t.parquet"
                    IndexFalse None "ROWGROUP" (Some "meta") no_files _ _ Hw)).
Defined.

(** * Further properties of the code *)

(** ** [enum type_id] *)

(** X1: the enumerators of [type_id] are numbered without gap from 0, [EMPTY]
    first: every tag has a value below [NUM_TYPE_IDS], different tags have
    different values, and every value from 0 to [NUM_TYPE_IDS - 1] is the
    value of a tag; so [NUM_TYPE_IDS], which comes last, counts the tags.
    The tag of a default-constructed [data_type] is [EMPTY], of value 0. *)
Theorem type_id_values_enumerate :
  (forall t, 0 <= type_id_value t < NUM_TYPE_IDS) /\
  (forall t t', type_id_value t = type_id_value t' -> t = t') /\
  (forall v, 0 <= v < NUM_TYPE_IDS -> exists t, type_id_value t = v) /\
  type_id_value (id data_type_default) = 0.
Proof.
  split; [| split; [| split]].
  - intros t. unfold NUM_TYPE_IDS. destruct t; simpl; lia.
  - intros t t'. destruct t, t'; simpl; intros H; try reflexivity; lia.
  - unfold NUM_TYPE_IDS. intros v Hv.
    assert (Hcases : v = 0 \/ v = 1 \/ v = 2 \/ v = 3 \/ v = 4 \/ v = 5 \/
                     v = 6 \/ v = 7 \/ v = 8 \/ v = 9 \/ v = 10 \/ v = 11)
      by lia.
    repeat (destruct Hcases as [->|Hcases]); [..| subst v].
    + by exists EMPTY.
    + by exists INT8.
    + by exists INT16.
    + by exists INT32.
    + by exists INT64.
    + by exists FLOAT32.
    + by exists FLOAT64.
    + by exists BOOL8.
    + by exists DATE32.
    + by exists TIMESTAMP.
    + by exists CATEGORY.
    + by exists STRING.
  - reflexivity.
Qed.

(** ** [BufferArrayFromVector] *)

Lemma unsigned_modulus_pos : 0 < unsigned_modulus.
Proof. reflexivity. Qed.

Lemma lookups_are_take {A} (v : list A) (n : nat) :
  (n <= length v)%nat ->
  (fun j => v !! j) <$> seq 0 n = Some <$> take n v.
Proof.
  intros Hn. apply list_eq. intros i.
  rewrite !list_lookup_fmap.
  destruct (decide (i < n)%nat) as [Hi|Hi].
  - rewrite lookup_seq_lt, lookup_take_lt by done. simpl.
    destruct (lookup_lt_is_Some_2 v i) as [x Hx]; [lia |]. by rewrite Hx.
  - rewrite lookup_seq_ge, lookup_take_ge by lia. done.
Qed.

(** X2: whatever vector has been set, the buffer [__getbuffer__] fills in is
    a writable, C-contiguous, two-dimensional view of one row of bytes: two
    dimensions, items of one byte, [len] the product of the shape times the
    item size, the stride of a row the bytes of a row, and it never spans
    more bytes than the vector holds.  The object keeps the vector and the
    same shape and strides as the buffer. *)
Theorem getbuffer_is_one_row_of_bytes (self : BufferArray)
    (v : list Byte.byte) (flags : Z) :
  let self' := (BufferArray_getbuffer (BufferArray_set_ptr self v) flags).1 in
  let b := (BufferArray_getbuffer (BufferArray_set_ptr self v) flags).2 in
  pb_ndim b = 2 /\
  pb_shape b = [1; pb_len b] /\
  pb_strides b = [pb_len b * pb_itemsize b; pb_itemsize b] /\
  pb_itemsize b = 1 /\
  pb_readonly b = 0 /\
  pb_len b = product_Z (pb_shape b) * pb_itemsize b /\
  0 <= pb_len b <= Z.of_nat (length v) /\
  pb_len b < unsigned_modulus /\
  pb_buf b = v /\
  ba_in_vec self' = v /\
  ba_shape self' = pb_shape b /\
  ba_strides self' = pb_strides b.
Proof.
  simpl.
  pose proof (Z.mod_pos_bound (Z.of_nat (length v)) unsigned_modulus
                unsigned_modulus_pos) as Hmod.
  assert (Hle : Z.of_nat (length v) mod unsigned_modulus
                <= Z.of_nat (length v))
    by (apply Z.mod_le; [lia | apply unsigned_modulus_pos]).
  set (n := Z.of_nat (length v) mod unsigned_modulus) in *.
  replace (n * 1) with n by lia. replace (1 * n) with n by lia.
  replace (n * 1) with n by lia.
  repeat split; try done; lia.
Qed.

(** X3: the array [np.asarray] builds from the buffer has one row, holding
    the first [size mod 2^32] bytes of the vector: it never reads outside the
    vector, and it holds the whole vector exactly when the vector is shorter
    than [2^32] bytes, the range of the [unsigned] field [length]. *)
Theorem asarray_is_prefix_of_vector (self : BufferArray) (v : list Byte.byte)
    (flags : Z) :
  let b := (BufferArray_getbuffer (BufferArray_set_ptr self v) flags).2 in
  np_asarray_rows b
  = [Some <$> take (Z.to_nat (Z.of_nat (length v) mod unsigned_modulus)) v] /\
  (np_asarray_rows b = [Some <$> v]
   <-> Z.of_nat (length v) < unsigned_modulus).
Proof.
  intros b. subst b.
  pose proof (Z.mod_pos_bound (Z.of_nat (length v)) unsigned_modulus
                unsigned_modulus_pos) as Hmod.
  assert (Hle : Z.of_nat (length v) mod unsigned_modulus
                <= Z.of_nat (length v))
    by (apply Z.mod_le; [lia | apply unsigned_modulus_pos]).
  assert (Hrows :
    np_asarray_rows
      (BufferArray_getbuffer (BufferArray_set_ptr self v) flags).2
    = [Some <$> take (Z.to_nat (Z.of_nat (length v) mod unsigned_modulus)) v]).
  { unfold np_asarray_rows, buffer_item. simpl.
    set (n := Z.of_nat (length v) mod unsigned_modulus) in *.
    change (seq 0 (Z.to_nat 1)) with [0%nat]. simpl. f_equal.
    rewrite <- lookups_are_take by lia.
    apply list_fmap_ext. intros i j _. f_equal. lia. }
  split; [exact Hrows |].
  rewrite Hrows. split.
  - intros [= Heq]. apply (f_equal length) in Heq.
    rewrite !length_fmap, length_take in Heq. lia.
  - intros Hlt. rewrite Z.mod_small by lia. rewrite Nat2Z.id.
    by rewrite take_ge.
Qed.

(** ** The footer merger *)

Lemma asarray_of_vector_rows (v : list Byte.byte) :
  asarray_of_vector v
  = PyArray2
      [Some <$> take (Z.to_nat (Z.of_nat (length v) mod unsigned_modulus)) v].
Proof.
  pose proof (Z.mod_pos_bound (Z.of_nat (length v)) unsigned_modulus
                unsigned_modulus_pos) as Hmod.
  assert (Hle : Z.of_nat (length v) mod unsigned_modulus
                <= Z.of_nat (length v))
    by (apply Z.mod_le; [lia | apply unsigned_modulus_pos]).
  unfold asarray_of_vector, np_asarray_rows, buffer_item. simpl.
  set (n := Z.of_nat (length v) mod unsigned_modulus) in *.
  change (seq 0 (Z.to_nat 1)) with [0%nat]. simpl. do 2 f_equal.
  rewrite <- lookups_are_take by lia.
  apply list_fmap_ext. intros i j _. f_equal. lia.
Qed.

(** The array over a vector is iterated row by row, and its one row is not
    an integer unless it holds exactly one byte. *)
Lemma vector_from_py_asarray (v : list Byte.byte) :
  Z.of_nat (length v) mod unsigned_modulus <> 1 ->
  vector_from_py (asarray_of_vector v) = Raise TypeError.
Proof.
  intros Hn. rewrite asarray_of_vector_rows. simpl.
  pose proof (Z.mod_pos_bound (Z.of_nat (length v)) unsigned_modulus
                unsigned_modulus_pos) as Hmod.
  assert (Hle : Z.of_nat (length v) mod unsigned_modulus
                <= Z.of_nat (length v))
    by (apply Z.mod_le; [lia | apply unsigned_modulus_pos]).
  set (n := Z.of_nat (length v) mod unsigned_modulus) in *.
  assert (Hlen : length (take (Z.to_nat n) v) <> 1%nat)
    by (rewrite length_take; lia).
  destruct (take (Z.to_nat n) v) as [|b [|b' l]]; simpl in *; done.
Qed.

Lemma vector_from_py_asarray_one_byte (b : Byte.byte) :
  vector_from_py (asarray_of_vector [b]) = Ok [b].
Proof. reflexivity. Qed.

Lemma push_blobs_cons (b : py_blob) (l : list py_blob)
    (acc : list (list Byte.byte)) :
  push_blobs (b :: l) acc
  = (blob_c ← vector_from_py b; push_blobs l (push_back acc blob_c)).
Proof. done. Qed.

Lemma push_blobs_app (l1 l2 : list py_blob) (acc : list (list Byte.byte)) :
  push_blobs (l1 ++ l2) acc = (acc' ← push_blobs l1 acc; push_blobs l2 acc').
Proof.
  revert acc; induction l1 as [|b l1 IH]; intros acc; simpl; [done |].
  destruct (vector_from_py b); simpl; [apply IH | done].
Qed.

Lemma push_blobs_convertible (l : list py_blob) (acc : list (list Byte.byte)) :
  Forall (fun b => is_Ok (vector_from_py b) = true) l ->
  exists acc', push_blobs l acc = Ok acc'.
Proof.
  revert acc; induction l as [|b l IH]; intros acc Hall; simpl; [eauto |].
  apply Forall_cons in Hall as [Hb Hall].
  destruct (vector_from_py b); simpl; [by apply IH | done].
Qed.

Lemma push_blobs_bytes (l acc : list (list Byte.byte)) :
  push_blobs (PyBytes <$> l) acc = Ok (acc ++ l).
Proof.
  revert acc; induction l as [|v l IH]; intros acc; simpl.
  - by rewrite app_nil_r.
  - rewrite IH. unfold push_back. by rewrite <- app_assoc.
Qed.

Section Merger.
Context {World : Type} `{!libcudf_io World (list Byte.byte)}.

(** Handed [bytes] objects, the binding passes their bytes on to libcudf as
    they are and in list order, and returns what libcudf returns, as an
    array. *)
Lemma merge_filemetadata_bytes (l : list (list Byte.byte)) :
  merge_filemetadata (PyBytes <$> l)
  = (output_c ← parquet_merge_metadata l; Ok (asarray_of_vector output_c)).
Proof. unfold merge_filemetadata. by rewrite push_blobs_bytes. Qed.

(** What the binding returns is an array over a vector. *)
Lemma merge_filemetadata_returns_array (l : list py_blob) (blob : py_blob) :
  merge_filemetadata l = Ok blob -> exists v, blob = asarray_of_vector v.
Proof.
  unfold merge_filemetadata.
  destruct (push_blobs l []) as [list_c|]; simpl; [| done].
  destruct (parquet_merge_metadata list_c) as [output_c|]; simpl; [| done].
  intros [= <-]. eauto.
Qed.

(** C9 (code): a list of footer blobs that holds an array as
    [write_parquet] (with a footer path) and [merge_filemetadata] return
    them, over a footer of any length but one byte, is not merged: once the
    blobs before it have been converted, the conversion of line 315 fails on
    the array with a [TypeError], and libcudf is not called, whatever the
    schemas of the footers are. *)
Theorem merge_refuses_returned_arrays (before after : list py_blob)
    (v : list Byte.byte) :
  Forall (fun b => is_Ok (vector_from_py b) = true) before ->
  Z.of_nat (length v) mod unsigned_modulus <> 1 ->
  merge_filemetadata (before ++ asarray_of_vector v :: after)
  = Raise TypeError.
Proof.
  intros Hbefore Hv. unfold merge_filemetadata. rewrite push_blobs_app.
  destruct (push_blobs_convertible before [] Hbefore) as [acc ->].
  rewrite bind_Ok, push_blobs_cons, vector_from_py_asarray by done. done.
Qed.

End Merger.

Lemma merge_refuses_returned_arrays_witness :
  @merge_filemetadata unit echo_libcudf
    [PyBytes footer_bytes; asarray_of_vector footer_bytes]
  = Raise TypeError.
Proof.
  apply (@merge_refuses_returned_arrays unit echo_libcudf
           [PyBytes footer_bytes] [] footer_bytes).
  - repeat constructor.
  - vm_compute. discriminate.
Defined.

(** The same footers as [bytes] objects reach the merger of libcudf. *)
Lemma merge_of_bytes_reaches_libcudf :
  @merge_filemetadata unit echo_libcudf
    [PyBytes footer_bytes; PyBytes footer_bytes]
  = Ok (asarray_of_vector (footer_bytes ++ footer_bytes)).
Proof. reflexivity. Qed.

(** ** The read path *)

Lemma odict_get_None_key {V} (d : list (string * V)) (k : string) :
  odict_get d k = None -> k ∉ d.*1.
Proof.
  induction d as [|[k0 v0] d IH]; simpl.
  - intros _. apply not_elem_of_nil.
  - case_bool_decide as Hk; [done |].
    intros H. apply not_elem_of_cons. split; [congruence | by apply IH].
Qed.

Lemma odict_get_del_ne {V} (d : list (string * V)) (s k : string) :
  k <> s -> odict_get (odict_del d s) k = odict_get d k.
Proof.
  intros Hne. induction d as [|[k0 v0] d IH]; simpl; [done |].
  destruct (bool_decide (k0 = s)) eqn:Hs; simpl.
  - apply bool_decide_eq_true_1 in Hs as ->.
    by rewrite bool_decide_eq_false_2 by congruence.
  - by rewrite IH.
Qed.

Lemma odict_split {V} (d : list (string * V)) (s : string) (v : V) :
  odict_get d s = Some v ->
  exists before after,
    d = before ++ (s, v) :: after /\ odict_del d s = before ++ after.
Proof.
  induction d as [|[k0 v0] d IH]; simpl; [done |].
  case_bool_decide as Hk.
  - intros [= <-]. subst k0. by exists [], d.
  - intros H. destruct (IH H) as (b & a & -> & Hdel).
    exists ((k0, v0) :: b), a. simpl. by rewrite Hdel.
Qed.

Section ReadPath.
Context {World Blob : Type} `{!libcudf_io World Blob} `{!pyarrow_compat}.

(** X4: the reader arguments are built exactly when every selection option
    that is set fits [size_type]; they then carry the source, the column
    selection in the order given, the two flags and each option as given (its
    default when unset), and ask for no timestamp cast.  Otherwise the call
    fails with [OverflowError] and the reader is not called, whatever the
    state of the sources.  An empty column list and no column list give the
    same arguments. *)
Theorem reader_arguments_or_overflow (src : source_info)
    (columns : option (list string))
    (row_group row_group_count skip_rows num_rows : option Z)
    (stc upm : bool) :
  let given := [default 0 skip_rows; default (-1) num_rows;
                default (-1) row_group; default (-1) row_group_count] in
  (forallb in_size_type given = true ->
   setup_read_args src columns row_group row_group_count skip_rows num_rows
     stc upm
   = Ok (mk_read_parquet_args src (default [] columns) stc upm
           (default 0 skip_rows) (default (-1) num_rows)
           (default (-1) row_group) (default (-1) row_group_count)
           data_type_default)) /\
  (forallb in_size_type given = false ->
   setup_read_args src columns row_group row_group_count skip_rows num_rows
     stc upm = Raise OverflowError /\
   forall w : World,
     read_parquet src columns row_group row_group_count skip_rows num_rows
       stc upm w = Raise OverflowError) /\
  setup_read_args src (Some []) row_group row_group_count skip_rows num_rows
    stc upm
  = setup_read_args src None row_group row_group_count skip_rows num_rows
      stc upm.
Proof.
  intros given. subst given.
  assert (Hcols : match columns with
                  | Some cols => fold_left push_back cols []
                  | None => []
                  end = default [] columns).
  { destruct columns; simpl; [by rewrite fold_push_back | done]. }
  split; [| split; [| done]].
  - simpl. rewrite !andb_true_r. intros Hall.
    apply andb_prop in Hall as [H1 Hall]. apply andb_prop in Hall as [H2 Hall].
    apply andb_prop in Hall as [H3 H4].
    unfold setup_read_args, to_size_type. rewrite Hcols.
    destruct skip_rows, num_rows, row_group, row_group_count; simpl in *;
      rewrite ?H1, ?H2, ?H3, ?H4; done.
  - simpl. rewrite !andb_true_r. intros Hall.
    assert (Hsetup : setup_read_args src columns row_group row_group_count
                       skip_rows num_rows stc upm = Raise OverflowError).
    { unfold setup_read_args, to_size_type.
      destruct skip_rows, num_rows, row_group, row_group_count; simpl in *.
      all: repeat match goal with
                  | |- context [in_size_type ?z] =>
                      destruct (in_size_type z) eqn:?; simpl in *
                  end; done. }
    split; [done |]. intros w. unfold read_parquet. by rewrite Hsetup.
Qed.

(** X5: when the file carries no pandas metadata (the entry is the empty
    string), or metadata with no [index_columns] key or an empty
    [index_columns] list, the table returned has all the decoded columns as
    data columns under the default, unnamed range index, whatever
    [use_pandas_metadata] is. *)
Theorem read_without_index_metadata (src : source_info)
    (columns : option (list string))
    (row_group row_group_count skip_rows num_rows : option Z)
    (stc upm : bool) (w : World) (args : read_parquet_args)
    (out : table_with_metadata) :
  setup_read_args src columns row_group row_group_count skip_rows num_rows
    stc upm = Ok args ->
  parquet_reader args w = Ok out ->
  user_data_at (user_data (metadata out)) "pandas" = EmptyText
    \/ (exists meta,
          user_data_at (user_data (metadata out)) "pandas"
            = JsonText (JDict meta) /\
          (odict_get meta "index_columns" = None
           \/ odict_get meta "index_columns" = Some (JList []))) ->
  let data := from_unique_ptr (tbl out) (column_names (metadata out)) in
  read_parquet src columns row_group row_group_count skip_rows num_rows
    stc upm w
  = Ok (mk_Table (RangeIndex None 0 (num_rows_of data)) data).
Proof.
  intros Hargs Hread Hmeta data. unfold read_parquet.
  rewrite Hargs; simpl. rewrite Hread; simpl.
  destruct Hmeta as [->|(meta & -> & [Hkey|Hkey])]; simpl.
  - done.
  - rewrite bool_decide_eq_false_2 by (by apply odict_get_None_key). done.
  - rewrite bool_decide_eq_true_2 by (by eapply odict_get_Some_key).
    rewrite Hkey. simpl. done.
Qed.

(** X6: when the decoder returns as many names as columns and no name
    twice, a read that returns loses no decoded column and keeps the columns
    in the order of the decoder.  Either the data columns of the table
    returned are the decoded columns, each under its name, under a range
    index over their rows; or one decoded column has become the index, and
    the data columns are all the others. *)
Theorem read_keeps_every_decoded_column (src : source_info)
    (columns : option (list string))
    (row_group row_group_count skip_rows num_rows : option Z)
    (stc upm : bool) (w : World) (args : read_parquet_args)
    (out : table_with_metadata) (df : Table) :
  setup_read_args src columns row_group row_group_count skip_rows num_rows
    stc upm = Ok args ->
  parquet_reader args w = Ok out ->
  NoDup (column_names (metadata out)) ->
  length (column_names (metadata out)) = length (tbl out) ->
  read_parquet src columns row_group row_group_count skip_rows num_rows
    stc upm w = Ok df ->
  let decoded := zip (column_names (metadata out)) (tbl out) in
  decoded.*1 = column_names (metadata out) /\
  decoded.*2 = tbl out /\
  ((_data df = decoded /\
    exists name, _index df = RangeIndex name 0 (num_rows_of decoded))
   \/ (exists before s col after name,
          decoded = before ++ (s, col) :: after /\
          _index df = GenericIndex name col /\
          _data df = before ++ after)).
Proof.
  intros Hargs Hout Hnd Hlen Hdf decoded.
  assert (Hfst : decoded.*1 = column_names (metadata out))
    by (apply fst_zip; lia).
  split; [done |]. split; [apply snd_zip; lia |].
  unfold read_parquet in Hdf. rewrite Hargs in Hdf; simpl in Hdf.
  rewrite Hout in Hdf; simpl in Hdf.
  destruct (find_index_col _) as [idx|]; simpl in Hdf; [| done].
  unfold from_unique_ptr in Hdf. fold decoded in Hdf.
  rewrite odict_of_pairs_NoDup in Hdf by (by rewrite Hfst).
  unfold set_index_column, _from_table in Hdf.
  destruct idx as [| | | |s| |];
    try (injection Hdf as <-; left; simpl; eauto; fail).
  destruct (bool_decide (s ≠ "")); [| injection Hdf as <-; left; simpl; eauto].
  destruct (bool_decide (s ∈ column_names (metadata out))).
  - unfold set_index in Hdf. simpl in Hdf.
    destruct (odict_get decoded s) as [col|] eqn:Hcol; simpl in Hdf; [| done].
    injection Hdf as <-. right. simpl.
    destruct (odict_split _ _ _ Hcol) as (before & after & Hsplit & Hdel).
    exists before, s, col, after, (_backwards_compatible_index_name s s).
    by rewrite Hdel.
  - destruct upm; injection Hdf as <-; left; simpl; eauto.
Qed.

(** X7: in the binding, [use_pandas_metadata] decides nothing but a label:
    for the same decoded table and the same designated entry, the step that
    sets the index fails or succeeds alike with the flag set and unset, and
    gives the same data columns and the same index column; the two tables
    differ only when the entry is a non-empty string naming no decoded
    column, and then only by the name of the index. *)
Theorem use_pandas_metadata_only_labels (df : Table) (index_col : json)
    (names : list string) :
  match set_index_column df index_col names true,
        set_index_column df index_col names false with
  | Ok a, Ok b =>
      _data a = _data b /\
      index_columns (_index a) = index_columns (_index b) /\
      (a = b \/
       exists s, index_col = JStr s /\ s <> "" /\ (s ∉ names) /\
                 b = df /\ a = set_index_name df (Some s))
  | Raise e, Raise e' => e = e'
  | _, _ => False
  end.
Proof.
  unfold set_index_column.
  destruct index_col as [| | | |s| |]; try (repeat split; auto; fail).
  case_bool_decide as Hs; [| repeat split; auto].
  case_bool_decide as Hin.
  - destruct (set_index df s) as [df'|]; simpl; [| done].
    destruct (index_name (_index df')); [| done]. repeat split; auto.
  - split; [done |]. split; [simpl; by destruct (_index df) |].
    right. exists s. repeat split; done.
Qed.

End ReadPath.

(** ** The write path *)

Lemma push_index_names_None (names : list (option string)) (acc : list string) :
  None ∈ names -> push_index_names names acc = Raise TypeError.
Proof.
  revert acc. induction names as [|[n|] names IH]; intros acc Hin; simpl.
  - by apply elem_of_nil in Hin.
  - apply IH. by apply elem_of_cons in Hin as [|].
  - done.
Qed.

Section WritePath.
Context {World Blob : Type} `{!libcudf_io World Blob}.

(** X10: when the index policy is not [False] and the table has a
    [MultiIndex] with an unnamed level, the arguments of the encoder are not
    built: [str.encode] refuses the name of that level with a [TypeError],
    whatever the other arguments are and whatever the columns hold, and the
    write fails with that error, the sink being as it was. *)
Theorem unnamed_level_is_refused (table : Table) (path : string)
    (index : index_policy) (compression : option string) (statistics : string)
    (metadata_file_path : option string) :
  index <> IndexFalse ->
  isinstance_MultiIndex (_index table) = true ->
  None ∈ index_names (_index table) ->
  setup_write_args table path index compression statistics
    metadata_file_path = Raise TypeError /\
  forall w : World,
    write_parquet table path index compression statistics
      metadata_file_path w = (Raise TypeError, w).
Proof.
  intros Hpol Hmulti Hnone.
  assert (Hfail : setup_write_args table path index compression statistics
                    metadata_file_path = Raise TypeError).
  { unfold setup_write_args.
    rewrite view_and_names_unfold, Hmulti.
    replace (is_not_False index) with true by (by destruct index).
    by rewrite push_index_names_None. }
  split; [done |]. intros w. by apply write_parquet_setup_Raise.
Qed.

(** X11: with the index policy [False] the index of the table plays no part
    in the write: two tables with the same data columns are written alike,
    whatever their indexes are, be it one with unnamed levels or of CATEGORY
    type; the encoder is handed the data columns under their names. *)
Theorem index_false_ignores_the_index (i i' : Index)
    (data : list (string * Column)) (path : string)
    (compression : option string) (statistics : string)
    (metadata_file_path : option string) (w : World) :
  write_parquet (mk_Table i data) path IndexFalse compression statistics
    metadata_file_path w
  = write_parquet (mk_Table i' data) path IndexFalse compression statistics
      metadata_file_path w /\
  forall args,
    setup_write_args (mk_Table i data) path IndexFalse compression statistics
      metadata_file_path = Ok args ->
    wa_table args = data.*2 /\ column_names (wa_metadata args) = data.*1.
Proof.
  split; [reflexivity |].
  intros args Hargs.
  apply setup_write_args_Ok in Hargs
    as (tv & names & md & comp & stat & Hvn & _ & _ & _ & _ & -> & -> & _).
  rewrite view_and_names_unfold in Hvn. simpl in Hvn.
  by injection Hvn as <- <-.
Qed.

(** X12: the writer only tells the index policy [False] from the rest: any
    two policies other than [False], that is [True] and [None], give the same
    write, with the same view, names, metadata, errors and result. *)
Theorem index_policies_other_than_false_agree (table : Table) (path : string)
    (index index' : index_policy) (compression : option string)
    (statistics : string) (metadata_file_path : option string) (w : World) :
  index <> IndexFalse ->
  index' <> IndexFalse ->
  setup_write_args table path index compression statistics metadata_file_path
  = setup_write_args table path index' compression statistics
      metadata_file_path /\
  write_parquet table path index compression statistics metadata_file_path w
  = write_parquet table path index' compression statistics
      metadata_file_path w.
Proof.
  intros Hpol Hpol'.
  assert (Hsetup :
    setup_write_args table path index compression statistics
      metadata_file_path
    = setup_write_args table path index' compression statistics
        metadata_file_path).
  { destruct index, index'; done. }
  split; [exact Hsetup |]. unfold write_parquet. by rewrite Hsetup.
Qed.

(** X13: in every write call that reaches the encoder there is one column
    name for each column of the view, in the same order: the names and the
    columns of the index come first, in equal number, none at all when the
    index is left out, and the names and the columns of the data follow, in
    table order. *)
Theorem names_and_view_go_together (table : Table) (path : string)
    (index : index_policy) (compression : option string) (statistics : string)
    (metadata_file_path : option string) (args : write_parquet_args) :
  setup_write_args table path index compression statistics metadata_file_path
    = Ok args ->
  exists (idx_names : list string) (idx_cols : list Column),
    column_names (wa_metadata args) = idx_names ++ _column_names table /\
    wa_table args = idx_cols ++ data_columns table /\
    length idx_names = length idx_cols /\
    length (column_names (wa_metadata args)) = length (wa_table args) /\
    ((idx_names = [] /\ idx_cols = []) \/
     (index <> IndexFalse /\
      index_names (_index table) = Some <$> idx_names /\
      idx_cols = index_columns (_index table))).
Proof.
  intros Hargs.
  apply setup_write_args_Ok in Hargs
    as (tv & names & md & comp & stat & Hvn & _ & _ & _ & _ & -> & -> & _).
  simpl. rewrite view_and_names_unfold in Hvn.
  assert (Hdata : length (_column_names table) = length (data_columns table))
    by (unfold _column_names, data_columns; by rewrite !length_fmap).
  assert (Hnone : exists (idx_names : list string) (idx_cols : list Column),
            _column_names table = idx_names ++ _column_names table /\
            data_view table = idx_cols ++ data_columns table /\
            length idx_names = length idx_cols /\
            length (_column_names table) = length (data_view table) /\
            ((idx_names = [] /\ idx_cols = []) \/
             (index <> IndexFalse /\
              index_names (_index table) = Some <$> idx_names /\
              idx_cols = index_columns (_index table)))).
  { exists [], []. repeat split; auto. }
  destruct (is_not_False index) eqn:Hpol.
  2: { injection Hvn as <- <-. exact Hnone. }
  assert (Hpol' : index <> IndexFalse) by (by destruct index).
  destruct (isinstance_MultiIndex (_index table)) eqn:Hmulti.
  - destruct (push_index_names _ _) as [idx_names|] eqn:Hpush; [| done].
    simpl in Hvn. injection Hvn as <- <-.
    apply push_index_names_Ok in Hpush as (l & Hl & ->). simpl.
    assert (Hlen : length l = length (index_columns (_index table))).
    { apply (f_equal length) in Hl. rewrite length_fmap in Hl. rewrite <- Hl.
      destruct (_index table); simpl; by rewrite ?length_fmap. }
    exists l, (index_columns (_index table)). unfold view.
    repeat split; auto. rewrite !length_app. lia.
  - destruct (index_name (_index table)) as [name|] eqn:Hname.
    2: { injection Hvn as <- <-. exact Hnone. }
    injection Hvn as <- <-.
    exists [name], (index_columns (_index table)). unfold view.
    destruct (_index table) as [n a b|n c|levels]; simpl in *; try done.
    all: subst n.
    all: split; [done |]; split; [done |]; split; [done |].
    all: split; [by rewrite Hdata |]; right; repeat split; done.
Qed.

End WritePath.

(** ** The metadata the writer generates, as the reader parses it *)

Lemma md_columns_descriptors (items : list (string * Column))
    (st st' : pandas_md) :
  md_columns items st = Ok st' ->
  md_index_descriptors st' = md_index_descriptors st.
Proof.
  revert st. induction items as [|[n c] items IH]; intros st; simpl.
  - by intros [= <-].
  - destruct (is_categorical_dtype c); [done |].
    intros H. by rewrite (IH _ H).
Qed.

Lemma md_indexes_descriptors_multi (table : Table)
    (levels : list (option string * Column)) (l : list string)
    (st st' : pandas_md) :
  _index table = MultiIndex levels ->
  md_indexes table (Some <$> l) st = Ok st' ->
  md_index_descriptors st' = md_index_descriptors st ++ (JStr <$> l).
Proof.
  intros Hi. revert st. induction l as [|n l IH]; intros st; simpl.
  - intros [= <-]. by rewrite app_nil_r.
  - rewrite Hi.
    destruct (get_level_values levels n) as [idx|] eqn:Hidx; simpl; [| done].
    apply get_level_values_Ok in Hidx as (c & -> & _). simpl.
    destruct (is_categorical_index (GenericIndex (Some n) c)); [done |].
    intros H. rewrite (IH _ H). simpl. by rewrite <- app_assoc.
Qed.

Lemma find_index_col_construct (col_names : list (option string))
    (index_levels : list Index) (descriptors : list json)
    (index : index_policy) (types : list string) :
  find_index_col
    (JsonText
       (construct_metadata col_names index_levels descriptors index types))
  = Ok (match (if is_not_False index then descriptors else []) with
        | [] => JStr ""
        | entry :: _ => entry
        end).
Proof.
  unfold find_index_col, construct_metadata, py_contains.
  rewrite bool_decide_eq_true_2 by (apply elem_of_cons; by left).
  simpl. by destruct (if is_not_False index then descriptors else []).
Qed.

(** X14: what the reader takes for the index from the metadata the writer
    has generated.  Parsing the ["pandas"] entry handed to the encoder never
    fails, and designates: nothing (the empty string) when the index policy is
    [False] or the index is a single unnamed level; the name of a named,
    materialised single-level index; the range descriptor, with step 1, of a
    named [RangeIndex]; and, of a [MultiIndex], the name of its first level
    only. *)
Theorem reader_designation_of_written_metadata (table : Table)
    (path : string) (index : index_policy) (compression : option string)
    (statistics : string) (metadata_file_path : option string)
    (args : write_parquet_args) :
  setup_write_args table path index compression statistics metadata_file_path
    = Ok args ->
  find_index_col (user_data_at (user_data (wa_metadata args)) "pandas")
  = Ok (match index, _index table with
        | IndexFalse, _ => JStr ""
        | _, RangeIndex (Some n) start stop =>
            JDict [("kind", JStr "range"); ("name", JStr n);
                   ("start", JInt start); ("stop", JInt stop);
                   ("step", JInt 1)]
        | _, GenericIndex (Some n) _ => JStr n
        | _, MultiIndex ((Some n, _) :: _) => JStr n
        | _, _ => JStr ""
        end).
Proof.
  intros Hargs.
  apply setup_write_args_Ok in Hargs
    as (tv & names & md & comp & stat & Hvn & Hmd & _ & _ & _ & _ & -> & _).
  assert (Hud : user_data_at
                  (user_data
                     (mk_table_metadata names
                        (<["pandas" := JsonText md]> ∅))) "pandas"
                = JsonText md).
  { unfold user_data_at. simpl. by rewrite lookup_insert_eq. }
  rewrite Hud. clear Hud.
  unfold generate_pandas_metadata in Hmd.
  destruct (md_columns _ _) as [st|] eqn:Hcols; simpl in Hmd; [| done].
  apply md_columns_descriptors in Hcols. simpl in Hcols.
  destruct (is_not_False index) eqn:Hpol.
  2: { injection Hmd as <-. rewrite find_index_col_construct, Hpol.
       by destruct index. }
  assert (Hgoal : forall entry,
            (forall st', md_indexes table (index_names (_index table)) st
                         = Ok st' ->
                         match md_index_descriptors st' with
                         | [] => JStr ""
                         | e :: _ => e
                         end = entry) ->
            find_index_col (JsonText md) = Ok entry).
  { intros entry Hentry.
    destruct (md_indexes _ _ _) as [st'|] eqn:Hidx; simpl in Hmd; [| done].
    injection Hmd as <-. rewrite find_index_col_construct, Hpol.
    f_equal. by apply Hentry. }
  rewrite view_and_names_unfold, Hpol in Hvn.
  destruct (_index table) as [n a b|n c|levels] eqn:Hi.
  - destruct n as [n|]; simpl in Hgoal.
    + rewrite Hi in Hgoal. simpl in Hgoal.
      destruct index; try done; apply Hgoal; intros st' [= <-]; simpl;
        by rewrite Hcols.
    + destruct index; try done; apply Hgoal; intros st' [= <-]; simpl;
        by rewrite Hcols.
  - destruct n as [n|]; simpl in Hgoal.
    + rewrite Hi in Hgoal. simpl in Hgoal.
      destruct (is_categorical_index (GenericIndex (Some n) c)).
      * destruct (md_indexes table [Some n] st) eqn:Hbad; simpl in Hbad;
          rewrite Hi in Hbad; simpl in Hbad.
        all: unfold is_categorical_index in *; simpl in *.
        all: destruct index; try done; apply Hgoal; intros st' Hst'; done.
      * destruct index; try done; apply Hgoal; intros st' [= <-]; simpl;
          by rewrite Hcols.
    + destruct index; try done; apply Hgoal; intros st' [= <-]; simpl;
        by rewrite Hcols.
  - simpl in Hvn.
    destruct (push_index_names _ _) as [idx_names|] eqn:Hpush; [| done].
    apply push_index_names_Ok in Hpush as (l & Hl & _).
    assert (Hentry : forall st',
              md_indexes table (index_names (MultiIndex levels)) st = Ok st' ->
              match md_index_descriptors st' with
              | [] => JStr ""
              | e :: _ => e
              end = match l with [] => JStr "" | n :: _ => JStr n end).
    { intros st' Hst'. simpl in Hst'. rewrite Hl in Hst'.
      rewrite (md_indexes_descriptors_multi _ _ _ _ _ Hi Hst'), Hcols.
      by destruct l. }
    rewrite (Hgoal _ Hentry).
    destruct levels as [|[[n|] c] levels]; destruct l as [|n' l];
      simpl in Hl; try done.
    all: destruct index; try done.
    all: by injection Hl as -> _.
Qed.

(** ** Metadata the reader cannot use *)

Section MalformedMetadata.
Context {World Blob : Type} `{!libcudf_io World Blob} `{!pyarrow_compat}.

(** X15: the pandas entry is parsed whatever [use_pandas_metadata] is, and a
    read fails, after the file has been decoded, on an entry the index
    cannot be taken from: with the [ValueError] of the JSON parser when the
    entry is not a JSON document, with a [TypeError] when [index_columns] is
    [null], a boolean or a number, which have no length, and with a
    [KeyError] when it is a non-empty object, which has no item 0. *)
Theorem malformed_pandas_metadata_fails (src : source_info)
    (columns : option (list string))
    (row_group row_group_count skip_rows num_rows : option Z)
    (stc upm : bool) (w : World) (args : read_parquet_args)
    (out : table_with_metadata) :
  setup_read_args src columns row_group row_group_count skip_rows num_rows
    stc upm = Ok args ->
  parquet_reader args w = Ok out ->
  let entry := user_data_at (user_data (metadata out)) "pandas" in
  let r := read_parquet src columns row_group row_group_count skip_rows
             num_rows stc upm w in
  (forall s, entry = OtherText s -> r = Raise (ValueError "JSONDecodeError")) /\
  (forall meta v,
     entry = JsonText (JDict meta) ->
     odict_get meta "index_columns" = Some v ->
     v = JNull \/ (exists b, v = JBool b) \/ (exists z, v = JInt z)
       \/ (exists l, v = JReal l) ->
     r = Raise TypeError) /\
  (forall meta item items,
     entry = JsonText (JDict meta) ->
     odict_get meta "index_columns" = Some (JDict (item :: items)) ->
     r = Raise KeyError).
Proof.
  intros Hargs Hread entry r. subst entry r. unfold read_parquet.
  rewrite Hargs; simpl. rewrite Hread; simpl.
  split; [| split].
  - intros s ->. done.
  - intros meta v -> Hkey Hv. simpl.
    rewrite bool_decide_eq_true_2 by (by eapply odict_get_Some_key).
    rewrite Hkey. simpl.
    destruct Hv as [->|[[b ->]|[[z ->]|[l ->]]]]; done.
  - intros meta item items -> Hkey. simpl.
    rewrite bool_decide_eq_true_2 by (by eapply odict_get_Some_key).
    rewrite Hkey. simpl. done.
Qed.

End MalformedMetadata.

(** ** Instances of the further properties *)

Lemma read_without_index_metadata_witness :
  read_parquet (mk_source_info "p.parquet") None None None None None false
    true ({["p.parquet" := file_without_metadata]} : gmap string ParquetFile)
  = Ok (mk_Table (RangeIndex None 0 3) [("a", col_a); ("x", col_x)]).
Proof.
  refine (read_without_index_metadata (mk_source_info "p.parquet") None None
            None None None false true
            ({["p.parquet" := file_without_metadata]}
               : gmap string ParquetFile)
            (mk_read_parquet_args (mk_source_info "p.parquet") [] false true
               0 (-1) (-1) (-1) (mk_data_type EMPTY))
            (mk_table_with_metadata [col_a; col_x]
               (mk_table_metadata ["a"; "x"] ∅))
            _ _ _).
  - reflexivity.
  - vm_compute. reflexivity.
  - left. vm_compute. reflexivity.
Defined.

Lemma read_keeps_every_decoded_column_witness :
  let decoded := [("a", col_a); ("x", col_x)] in
  exists df,
    read_parquet (mk_source_info "n.parquet") None None None None None false
      true ({["n.parquet" := file_with_named_index]}
              : gmap string ParquetFile)
    = Ok df /\
    ((_data df = decoded /\
      exists name, _index df = RangeIndex name 0 (num_rows_of decoded))
     \/ (exists before s col after name,
            decoded = before ++ (s, col) :: after /\
            _index df = GenericIndex name col /\
            _data df = before ++ after)).
Proof.
  intros decoded.
  assert (Hread :
    read_parquet (mk_source_info "n.parquet") None None None None None false
      true ({["n.parquet" := file_with_named_index]}
              : gmap string ParquetFile)
    = Ok table_named_index) by (vm_compute; reflexivity).
  assert (Hargs :
    setup_read_args (mk_source_info "n.parquet") None None None None None
      false true
    = Ok (mk_read_parquet_args (mk_source_info "n.parquet") [] false true
            0 (-1) (-1) (-1) (mk_data_type EMPTY))) by reflexivity.
  assert (Hout :
    parquet_reader
      (mk_read_parquet_args (mk_source_info "n.parquet") [] false true
         0 (-1) (-1) (-1) (mk_data_type EMPTY))
      ({["n.parquet" := file_with_named_index]} : gmap string ParquetFile)
    = Ok (mk_table_with_metadata [col_a; col_x]
            (mk_table_metadata ["a"; "x"]
               (pf_user_data file_with_named_index))))
    by (vm_compute; reflexivity).
  assert (Hnd : NoDup ["a"; "x"]).
  { apply NoDup_cons. split; [| apply NoDup_singleton].
    apply not_elem_of_cons. split; [discriminate | apply not_elem_of_nil]. }
  assert (Hlen : length ["a"; "x"] = length [col_a; col_x]) by reflexivity.
  exists table_named_index. split; [exact Hread |].
  exact (proj2 (proj2 (read_keeps_every_decoded_column _ _ _ _ _ _ _ _ _ _ _
                         _ Hargs Hout Hnd Hlen Hread))).
Defined.

Lemma unnamed_level_is_refused_witness :
  write_parquet table_category_unnamed_level "t.parquet" IndexTrue
    (Some "gzip") "COLUMN" None no_files
  = (Raise TypeError, no_files).
Proof.
  assert (Hpol : IndexTrue <> IndexFalse) by discriminate.
  assert (Hmulti : isinstance_MultiIndex (_index table_category_unnamed_level)
                   = true) by reflexivity.
  assert (Hnone : None ∈ index_names (_index table_category_unnamed_level))
    by (apply elem_of_cons; by left).
  exact (proj2 (unnamed_level_is_refused table_category_unnamed_level
                  "t.parquet" IndexTrue (Some "gzip") "COLUMN" None
                  Hpol Hmulti Hnone) no_files).
Defined.

Lemma names_and_view_go_together_witness :
  match setup_write_args table_multi_index "t.parquet" IndexNone None
          "ROWGROUP" None with
  | Ok args =>
      length (column_names (wa_metadata args)) = length (wa_table args)
  | Raise _ => False
  end.
Proof.
  destruct (setup_write_args table_multi_index "t.parquet" IndexNone None
              "ROWGROUP" None) as [args|e] eqn:Hargs.
  - destruct (names_and_view_go_together table_multi_index "t.parquet"
                IndexNone None "ROWGROUP" None args Hargs)
      as (l & cs & _ & _ & _ & Hlen & _).
    exact Hlen.
  - vm_compute in Hargs. discriminate.
Defined.

Lemma reader_designation_of_written_metadata_witness :
  match setup_write_args table_multi_index "t.parquet" IndexNone None
          "ROWGROUP" None with
  | Ok args =>
      find_index_col (user_data_at (user_data (wa_metadata args)) "pandas")
      = Ok (JStr "a")
  | Raise _ => False
  end.
Proof.
  destruct (setup_write_args table_multi_index "t.parquet" IndexNone None
              "ROWGROUP" None) as [args|e] eqn:Hargs.
  - exact (reader_designation_of_written_metadata table_multi_index
             "t.parquet" IndexNone None "ROWGROUP" None args Hargs).
  - vm_compute in Hargs. discriminate.
Defined.

Lemma malformed_pandas_metadata_fails_witness :
  read_parquet (mk_source_info "m.parquet") None None None None None false
    false ({["m.parquet" := file_with_null_index_columns]}
             : gmap string ParquetFile)
  = Raise TypeError.
Proof.
  refine (proj1 (proj2
            (malformed_pandas_metadata_fails (mk_source_info "m.parquet") None
               None None None None false false
               ({["m.parquet" := file_with_null_index_columns]}
                  : gmap string ParquetFile)
               (mk_read_parquet_args (mk_source_info "m.parquet") [] false
                  false 0 (-1) (-1) (-1) (mk_data_type EMPTY))
               (mk_table_with_metadata [col_a; col_x]
                  (mk_table_metadata ["a"; "x"]
                     (pf_user_data file_with_null_index_columns)))
               _ _))
            [("index_columns", JNull)] JNull _ _ _).
  - reflexivity.
  - vm_compute. reflexivity.
  - vm_compute. reflexivity.
  - reflexivity.
  - by left.
Defined.

Lemma index_policies_other_than_false_agree_witness :
  write_parquet table_named_index "t.parquet" IndexTrue None "ROWGROUP" None
    no_files
  = write_parquet table_named_index "t.parquet" IndexNone None "ROWGROUP" None
      no_files.
Proof.
  assert (Htrue : IndexTrue <> IndexFalse) by discriminate.
  assert (Hnone : IndexNone <> IndexFalse) by discriminate.
  exact (proj2 (index_policies_other_than_false_agree table_named_index
                  "t.parquet" IndexTrue IndexNone None "ROWGROUP" None
                  no_files Htrue Hnone)).
Defined.
